(** * Batch generation for sentence-level language modelling

    A shallow embedding of [lstm_with_wordpieces/lm_keras_generators.py]
    (class [KerasLMSentenceLevelBatchGenerator]) and of [prepare_sequences]
    from [lstm_with_wordpieces/03_train.py], followed by the properties the
    specification states about them.

    Conventions of the embedding:
    - Python integers are [Z]; [//] is floor division and raises on zero.
    - Python lists and numpy rows are [list Z]; a 2-D array is a list of rows.
      Token ids are taken to fit numpy's int32, so the casts done by
      [pad_sequences] leave them unchanged.
    - An exception is the [Raise] branch of [result].
    - A generator is a state machine: one call of a [next_*] function runs the
      body of the generator's [while True] loop up to its [yield].
    - [print] and [logging] calls are dropped, but for the list items they
      read. *)

From stdpp Require Import base numbers list strings.

Open Scope Z_scope.

(** ** Python results *)

Inductive exn :=
  ValueError | ZeroDivisionError | TypeError | IndexError | FileNotFoundError.

Inductive result (A : Type) :=
  | Ok (a : A)
  | Raise (e : exn).
Arguments Ok {A} a.
Arguments Raise {A} e.

#[global] Instance result_ret : MRet result := @Ok.
#[global] Instance result_bind : MBind result :=
  fun A B f m => match m with Ok a => f a | Raise e => Raise e end.

Fixpoint mapR {A B} (f : A -> result B) (l : list A) : result (list B) :=
  match l with
  | [] => Ok []
  | a :: l => b ← f a; bs ← mapR f l; Ok (b :: bs)
  end.

(** ** Python and numpy primitives *)

Module Py.

(** [a // b] *)
Definition floordiv (a b : Z) : result Z :=
  if bool_decide (b = 0) then Raise ZeroDivisionError else Ok (a `div` b).

(** [len(l)] *)
Definition len {A} (l : list A) : Z := Z.of_nat (length l).

(** [range(n)] *)
Definition range (n : Z) : list Z := Z.of_nat <$> seq 0 (Z.to_nat n).

(** A slice bound [i] brought into [0..len], as slicing does. *)
Definition clamp (len i : Z) : Z :=
  if bool_decide (i < 0) then Z.max 0 (len + i) else Z.min i len.

(** [l[start:stop]]; [None] is an omitted bound. *)
Definition slice {A} (start stop : option Z) (l : list A) : list A :=
  let a := from_option (clamp (len l)) 0 start in
  let b := from_option (clamp (len l)) (len l) stop in
  take (Z.to_nat (b - a)) (drop (Z.to_nat a) l).

(** The position [l[i]] denotes, counting from the end when [i < 0]. *)
Definition index {A} (l : list A) (i : Z) : result nat :=
  let j := if bool_decide (i < 0) then len l + i else i in
  if bool_decide (0 <= j < len l) then Ok (Z.to_nat j) else Raise IndexError.

(** [l[i] = v] *)
Definition setitem {A} (l : list A) (i : Z) (v : A) : result (list A) :=
  j ← index l i; Ok (<[j:=v]> l).

End Py.

Module Np.

(** What [np.genfromtxt] returns for one line of text: the result is
    squeezed, so a line with a single number gives a 0-d array. *)
Inductive ndarray :=
  | Scalar (v : Z)
  | Vector (l : list Z).

(** [np.genfromtxt(StringIO(text), dtype=int)], on the ids written in
    [text]; an empty or blank text gives the empty vector. *)
Definition genfromtxt (ids : list Z) : ndarray :=
  match ids with
  | [v] => Scalar v
  | _ => Vector ids
  end.

(** The four bytes of an int32 cell, and the bytes of a 2-D int32 array,
    which is what [pad_sequences] returns. *)
Definition int32_bytes (v : Z) : list Z :=
  (fun k => Z.land (Z.shiftr v (8 * k)) 255) <$> [0; 1; 2; 3].

Definition tobytes (a : list (list Z)) : list Z :=
  concat (int32_bytes <$> concat a).

(** [row[start:stop] = src] on a 1-d array, with broadcasting of a source
    of length one. *)
Definition setslice {A} (row : list A) (start stop : option Z) (src : list A)
  : result (list A) :=
  let a := Z.to_nat (from_option (Py.clamp (Py.len row)) 0 start) in
  let b := Z.to_nat (from_option (Py.clamp (Py.len row)) (Py.len row) stop) in
  let n := (b - a)%nat in
  if bool_decide (length src = n) then Ok (take a row ++ src ++ drop (a + n) row)
  else match src with
       | [v] => Ok (take a row ++ replicate n v ++ drop (a + n) row)
       | _ => Raise ValueError
       end.

End Np.

(** ** [tf.keras.preprocessing.sequence.pad_sequences] *)

Module Keras.

Inductive side := pre | post.

(** One row of the result: the row starts as [maxlen] copies of [value];
    an empty sequence leaves it so, another one is truncated and written
    at the start ([post]) or at the end ([pre]) of the row. *)
Definition pad_row (maxlen : nat) (padding truncating : side) (value : Z)
    (s : list Z) : result (list Z) :=
  let x := replicate maxlen value in
  if bool_decide (s = []) then Ok x
  else
    let trunc := match truncating with
                 | pre => Py.slice (Some (- Z.of_nat maxlen)) None s
                 | post => Py.slice None (Some (Z.of_nat maxlen)) s
                 end in
    match padding with
    | post => Np.setslice x None (Some (Py.len trunc)) trunc
    | pre => Np.setslice x (Some (- Py.len trunc)) None trunc
    end.

(** [pad_sequences(sequences, maxlen=maxlen, padding=padding,
    truncating=truncating, value=value)]; [np.full] refuses a negative
    dimension. *)
Definition pad_sequences (sequences : list (list Z)) (maxlen : Z)
    (padding truncating : side) (value : Z) : result (list (list Z)) :=
  if bool_decide (maxlen < 0) then Raise ValueError
  else mapR (pad_row (Z.to_nat maxlen) padding truncating value) sequences.

End Keras.

(** ** [lm_keras_generators.py] *)

Module Generators.

(** The [x_sequences] argument: the padded table in memory, or the path of
    a file of ids when streaming. *)
Inductive source :=
  | InMemory (table : list (list Z))
  | OnDisk (path : string).

(** [len(x_sequences)] *)
Definition source_len (s : source) : Z :=
  match s with
  | InMemory table => Py.len table
  | OnDisk path => Z.of_nat (String.length path)
  end.

Record generator := {
  x_sequences : source;
  explicit_seq_len : Z;
  no_slurp : bool;
  max_seq_len : Z;
  min_seq_len : Z;
  num_shifted_sentences : Z;
  current_idx : Z;
  skip_step : Z;
  pad_idx_or_symbol : Z
}.

Definition set_current_idx (g : generator) (i : Z) : generator :=
  {| x_sequences := x_sequences g;
     explicit_seq_len := explicit_seq_len g;
     no_slurp := no_slurp g;
     max_seq_len := max_seq_len g;
     min_seq_len := min_seq_len g;
     num_shifted_sentences := num_shifted_sentences g;
     current_idx := i;
     skip_step := skip_step g;
     pad_idx_or_symbol := pad_idx_or_symbol g |}.

(** [explicit_x_seq_len or len(x_sequences)]: [None] and [0] are falsy. *)
Definition or_len (explicit_x_seq_len : option Z) (s : source) : Z :=
  match explicit_x_seq_len with
  | Some e => if bool_decide (e = 0) then source_len s else e
  | None => source_len s
  end.

Definition __init__ (x_sequences : source)
    (max_seq_len min_seq_len num_shifted_sentences pad_idx_or_symbol : Z)
    (skip_step : Z) (explicit_x_seq_len : option Z) (no_slurp : bool)
  : result generator :=
  if bool_decide (skip_step > max_seq_len) then Raise ValueError
  else Ok {| x_sequences := x_sequences;
             explicit_seq_len := or_len explicit_x_seq_len x_sequences;
             no_slurp := no_slurp;
             max_seq_len := max_seq_len;
             min_seq_len := min_seq_len;
             num_shifted_sentences := num_shifted_sentences;
             current_idx := 0;
             skip_step := skip_step;
             pad_idx_or_symbol := pad_idx_or_symbol |}.

Definition get_num_sliding_windows (g : generator) : result Z :=
  Py.floordiv (max_seq_len g) (skip_step g).

Definition get_batch_size (g : generator) : result Z :=
  w ← get_num_sliding_windows g; Ok (num_shifted_sentences g * w).

Definition get_epoch_size (g : generator) : result Z :=
  w ← get_num_sliding_windows g; Ok (explicit_seq_len g * w).

Definition get_steps_per_epoch (g : generator) : result Z :=
  e ← get_epoch_size g; b ← get_batch_size g; Py.floordiv e b.

Definition reset (g : generator) : generator := set_current_idx g 0.

(** The rows of a table, of a block or of one half of a batch. *)
Abbreviation rows := (list (list Z)).

(** The loop over [window_idx], the same in both strategies: [x] receives
    the block cut from column [window_idx * skip_step] on, [y] the same
    rows without their first column. *)
Definition windows (block : rows) (skip_step num_sliding_windows : Z)
  : rows * rows :=
  foldl (fun '(x, y) window_idx =>
           let x_shifted := Py.slice (Some (window_idx * skip_step)) None <$> block in
           (x ++ x_shifted, y ++ (Py.slice (Some 1) None <$> x_shifted)))
        ([], []) (Py.range num_sliding_windows).

(** The last two statements before [yield]: both lists are padded back to
    [max_seq_len] columns, after the values, with the literal [1]. *)
Definition repad (g : generator) (xy : rows * rows) : result (rows * rows) :=
  x ← Keras.pad_sequences xy.1 (max_seq_len g) Keras.post Keras.pre 1;
  y ← Keras.pad_sequences xy.2 (max_seq_len g) Keras.post Keras.pre 1;
  Ok (x, y).

(** *** In memory *)

(** The wrap test at the head of the loop. *)
Definition wrap (g : generator) : Z :=
  if bool_decide (current_idx g + num_shifted_sentences g >= explicit_seq_len g)
  then 0 else current_idx g.

(** The lists [x] and [y] of one iteration, before they are re-padded.  On
    a path instead of a table the column slice is a [TypeError], met as soon
    as the loop over the windows runs once. *)
Definition slurped_rows (g : generator) (num_sliding_windows : Z)
  : result (rows * rows) :=
  match x_sequences g with
  | InMemory table =>
      let block :=
        Py.slice (Some (wrap g)) (Some (wrap g + num_shifted_sentences g)) table in
      Ok (windows block (skip_step g) num_sliding_windows)
  | OnDisk _ =>
      if bool_decide (0 < num_sliding_windows) then Raise TypeError
      else Ok ([], [])
  end.

(** One batch of [generate_slurped]: the yielded pair and the generator as
    it stands at the [yield].  [num_sliding_windows] is computed once
    before the loop, from fields that never change. *)
Definition next_slurped (g : generator) : result ((rows * rows) * generator) :=
  num_sliding_windows ← Py.floordiv (max_seq_len g) (skip_step g);
  xy ← slurped_rows g num_sliding_windows;
  let g' := set_current_idx g (wrap g + num_shifted_sentences g) in
  batch ← repad g xy;
  Ok (batch, g').

(** The first [k] batches and the generator after them. *)
Fixpoint run_slurped (k : nat) (g : generator)
  : result (list (rows * rows) * generator) :=
  match k with
  | O => Ok ([], g)
  | S k =>
      '(b, g1) ← next_slurped g;
      '(bs, g2) ← run_slurped k g1;
      Ok (b :: bs, g2)
  end.

(** *** On disk *)

(** A line of the corpus file: its length in bytes, terminator included,
    and the ids written on it. *)
Record text_line := { line_bytes : positive; line_ids : list Z }.

(** The file, and the read handle as the number of lines already read. *)
Abbreviation file := (list text_line).

Definition bytes (f : file) : Z :=
  foldr (fun l acc => Z.pos (line_bytes l) + acc) 0 f.

(** [os.path.getsize] *)
Definition getsize (f : file) : Z := bytes f.

(** [fd.tell()]: the offset of the first byte not read yet. *)
Definition tell (f : file) (pos : nat) : Z := bytes (take pos f).

(** [fd.readline()]: the next line and the new position; at the end of the
    file the empty text, the position unchanged. *)
Definition readline (f : file) (pos : nat) : list Z * nat :=
  match f !! pos with
  | Some l => (line_ids l, S pos)
  | None => ([], pos)
  end.

(** The inner [while True] of [generate_from_disk], with [fuel] bounding
    the number of iterations; [None] when the fuel runs out. *)
Fixpoint read_block (fuel : nat) (g : generator) (f : file) (pos : nat)
    (x_local_sequences : rows) (cnt : Z) : option (result (rows * nat)) :=
  match fuel with
  | O => None
  | S fuel =>
      let pos := if bool_decide (tell f pos > getsize f) then 0%nat else pos in
      let '(text, pos) := readline f pos in
      match Np.genfromtxt text with
      | Np.Scalar _ => Some (Raise TypeError)
      | Np.Vector line =>
          if bool_decide (Py.len line < min_seq_len g)
          then read_block fuel g f pos x_local_sequences cnt
          else
            match (if bool_decide (Py.len line > max_seq_len g)
                   then Py.setitem line (max_seq_len g - 1) 3
                   else Ok line) with
            | Raise e => Some (Raise e)
            | Ok line =>
                let x_local_sequences := x_local_sequences ++ [line] in
                let cnt := cnt + 1 in
                if bool_decide (cnt >= num_shifted_sentences g)
                then Some (Ok (x_local_sequences, pos))
                else read_block fuel g f pos x_local_sequences cnt
            end
      end
  end.

(** The block of an iteration, padded to [max_seq_len] columns with the
    configured pad value. *)
Definition pad_block (g : generator) (x_local_sequences : rows) : result rows :=
  Keras.pad_sequences x_local_sequences (max_seq_len g) Keras.post Keras.post
    (pad_idx_or_symbol g).

(** [os.path.getsize] on a table instead of a path: the bytes of the array
    are taken for the path.  A path that holds a zero byte is refused with
    [ValueError]; any other is taken to name no file. *)
Definition getsize_of_table (table : rows) : exn :=
  if bool_decide (0 ∈ Np.tobytes table) then ValueError else FileNotFoundError.

(** The lists [x] and [y] of one iteration on the file [f] that the path
    names, read from position [pos] on, before they are re-padded, and the
    new position.  On a table [os.path.getsize] raises. *)
Definition disk_rows (fuel : nat) (g : generator) (f : file) (pos : nat)
  : option (result ((rows * rows) * nat)) :=
  match Py.floordiv (max_seq_len g) (skip_step g) with
  | Raise e => Some (Raise e)
  | Ok num_sliding_windows =>
      match x_sequences g with
      | InMemory table => Some (Raise (getsize_of_table table))
      | OnDisk _ =>
          match read_block fuel g f pos [] 0 with
          | None => None
          | Some (Raise e) => Some (Raise e)
          | Some (Ok (x_local_sequences, pos')) =>
              Some (block ← pad_block g x_local_sequences;
                    Ok (windows block (skip_step g) num_sliding_windows, pos'))
          end
      end
  end.

(** One batch of [generate_from_disk]: the yielded pair and the new
    position. *)
Definition next_disk (fuel : nat) (g : generator) (f : file) (pos : nat)
  : option (result ((rows * rows) * nat)) :=
  match disk_rows fuel g f pos with
  | None => None
  | Some (Raise e) => Some (Raise e)
  | Some (Ok (xy, pos')) => Some (batch ← repad g xy; Ok (batch, pos'))
  end.

(** [generate]: one batch of the strategy that [no_slurp] selects; the state
    is the generator together with the read position in the file. *)
Definition next_batch (fuel : nat) (g : generator) (f : file) (pos : nat)
  : option (result ((rows * rows) * (generator * nat))) :=
  if no_slurp g then
    match next_disk fuel g f pos with
    | None => None
    | Some (Raise e) => Some (Raise e)
    | Some (Ok (b, pos')) => Some (Ok (b, (g, pos')))
    end
  else Some ('(b, g') ← next_slurped g; Ok (b, (g', pos))).

(** The first [k] batches and the position after them. *)
Fixpoint run_disk (fuel : nat) (k : nat) (g : generator) (f : file) (pos : nat)
  : option (result (list (rows * rows) * nat)) :=
  match k with
  | O => Some (Ok ([], pos))
  | S k =>
      match next_disk fuel g f pos with
      | None => None
      | Some (Raise e) => Some (Raise e)
      | Some (Ok (b, pos1)) =>
          match run_disk fuel k g f pos1 with
          | None => None
          | Some (Raise e) => Some (Raise e)
          | Some (Ok (bs, pos2)) => Some (Ok (b :: bs, pos2))
          end
      end
  end.

End Generators.

(** ** [03_train.py] *)

Module Train.

Definition UNK_ID : Z := 0.
Definition PAD_ID : Z := 1.
Definition BOS_ID : Z := 2.
Definition EOS_ID : Z := 3.

(** The entries of [args] that [prepare_sequences] and the construction of
    the generator read. *)
Record args := {
  no_slurp : bool;
  min_seq_len : Z;
  max_seq_len : Z;
  add_eos : bool;
  padding_direction : Keras.side;
  num_sents_to_shift : Z;
  skip_step : Z
}.

(** [v or d] on integers: [0] is falsy. *)
Definition or_else (v d : Z) : Z := if bool_decide (v = 0) then d else v.

Section Preparer.

(** [spmproc.encode_as_ids], the tokenizer. *)
Context {text : Type} (encode_as_ids : text -> list Z).

(** The body of the loop over the lines of the corpus. *)
Definition prepare_line (a : args) (x_sequences : list (list Z)) (line : text)
  : result (list (list Z)) :=
  let pieces := encode_as_ids line in
  if bool_decide (Py.len pieces < min_seq_len a) then Ok x_sequences
  else if bool_decide (Py.len pieces > max_seq_len a) then
    let pieces := Py.slice (Some 0) (Some (max_seq_len a)) pieces in
    pieces ← (if add_eos a then Py.setitem pieces (-1) 3 else Ok pieces);
    Ok (x_sequences ++ [pieces])
  else Ok (x_sequences ++ [pieces]).

Fixpoint prepare_lines (a : args) (x_sequences : list (list Z))
    (corpus : list text) : result (list (list Z)) :=
  match corpus with
  | [] => Ok x_sequences
  | line :: corpus =>
      x_sequences ← prepare_line a x_sequences line;
      prepare_lines a x_sequences corpus
  end.

(** The loop that logs the first ten sentences reads [x_sequences[i]] for
    [i] in [range(10)]; [spmproc.id_to_piece] is taken to know every id. *)
Definition log_first_ten (x_sequences : list (list Z)) : result unit :=
  _ ← mapR (Py.index x_sequences) (Py.range 10); Ok tt.

(** [prepare_sequences], on the lines of a corpus file that opened. *)
Definition prepare_sequences (a : args) (corpus : list text)
  : result (list (list Z)) :=
  x_sequences ← prepare_lines a [] corpus;
  _ ← log_first_ten x_sequences;
  Keras.pad_sequences x_sequences (max_seq_len a) (padding_direction a)
    Keras.pre PAD_ID.

(** The generator that [main] builds: on the path of the corpus and the
    line count that [wc -l] gives for it, or on the prepared table. *)
Definition batch_generator (a : args) (corpus : list text) (corpus_path : string)
    (wc_l : Z) : result Generators.generator :=
  '(x_sequences, explicit_x_seq_len) ←
    (if no_slurp a then Ok (Generators.OnDisk corpus_path, Some wc_l)
     else x_sequences ← prepare_sequences a corpus;
          Ok (Generators.InMemory x_sequences, None));
  Generators.__init__ x_sequences (max_seq_len a) (min_seq_len a)
    (or_else (num_sents_to_shift a) 3) PAD_ID (or_else (skip_step a) 5)
    explicit_x_seq_len (no_slurp a).

End Preparer.

End Train.

(** ** Vocabulary of the properties *)

Import Generators.

(** The states an in-memory generator goes through, from [g0] on, one
    yielded batch after the other. *)
Inductive reachable (g0 : generator) : generator -> Prop :=
  | reach_start : reachable g0 g0
  | reach_yield g b g' :
      reachable g0 g -> next_slurped g = Ok (b, g') -> reachable g0 g'.

(** The batches of a run, without the final state. *)
Definition yielded {A S} (r : result (A * S)) : result A :=
  '(a, _) ← r; Ok a.

(** [a.shape == (nrows, ncols)] *)
Definition has_shape (a : rows) (nrows ncols : Z) : Prop :=
  Py.len a = nrows ∧ Forall (fun r => Py.len r = ncols) a.

(** [ceil(a / b)] on integers *)
Definition ceil_div (a b : Z) : Z := - ((- a) `div` b).

(** A row post-padded with [value] up to [maxlen] columns. *)
Definition post_pad (maxlen : Z) (value : Z) (r : list Z) : list Z :=
  r ++ replicate (Z.to_nat maxlen - length r) value.

(** [y] holds the next-token targets of [x], [raw] being the rows of [x]
    before they were re-padded: row by row, [y[i][k]] is [x[i][k+1]] as long
    as column [k+1] exists in [raw[i]], and [pad] from there on. *)
Definition next_token_targets (maxlen pad : Z) (raw x y : rows) : Prop :=
  length x = length raw ∧ length y = length raw ∧
  ∀ (i : nat) (r : list Z), raw !! i = Some r →
    ∃ xi yi, x !! i = Some xi ∧ y !! i = Some yi ∧
      ∀ k : nat, Z.of_nat k < maxlen →
        ((S k < length r)%nat → ∃ v, xi !! S k = Some v ∧ yi !! k = Some v) ∧
        ((length r ≤ S k)%nat → yi !! k = Some pad).

(** A batch [b] as one of the two strategies yields it in state [g], with
    the lists [raw] it is re-padded from: a batch of the in-memory strategy,
    or a batch of the on-disk strategy on some file at some position. *)
Inductive emits (g : generator) (raw b : rows * rows) : Prop :=
  | emits_slurped w g' :
      get_num_sliding_windows g = Ok w →
      slurped_rows g w = Ok raw →
      next_slurped g = Ok (b, g') →
      emits g raw b
  | emits_disk fuel f pos pos' :
      disk_rows fuel g f pos = Some (Ok (raw, pos')) →
      next_disk fuel g f pos = Some (Ok (b, pos')) →
      emits g raw b.

(** The table of an in-memory generator holds padded sequences: no row is
    longer than [max_seq_len]. *)
Definition table_fits (g : generator) : Prop :=
  match x_sequences g with
  | InMemory table => Forall (fun row => Py.len row ≤ max_seq_len g) table
  | OnDisk _ => True
  end.

(** The table holds a full block: at least [n] rows, and as many rows as
    the sentence count [e] says. *)
Definition holds_block (src : source) (n e : Z) : Prop :=
  match src with
  | InMemory table => n ≤ Py.len table ∧ e ≤ Py.len table
  | OnDisk _ => True
  end.

(** The generator [g] with another pad value. *)
Definition with_pad (g : generator) (p : Z) : generator :=
  {| x_sequences := x_sequences g;
     explicit_seq_len := explicit_seq_len g;
     no_slurp := no_slurp g;
     max_seq_len := max_seq_len g;
     min_seq_len := min_seq_len g;
     num_shifted_sentences := num_shifted_sentences g;
     current_idx := current_idx g;
     skip_step := skip_step g;
     pad_idx_or_symbol := p |}.

(** A line that the on-disk strategy takes as it is: several ids, or none,
    at least [min_seq_len] and at most [max_seq_len] of them. *)
Definition plain_line (g : generator) (l : text_line) : Prop :=
  min_seq_len g ≤ Py.len (line_ids l) ≤ max_seq_len g ∧
  Py.len (line_ids l) ≠ 1.

(** What [prepare_sequences] keeps of a line longer than [max_seq_len]: its
    first [max_seq_len] ids, the last of them replaced by [3] when [add_eos]
    is set. *)
Definition cut (a : Train.args) (pieces : list Z) : list Z :=
  let pieces := take (Z.to_nat (Train.max_seq_len a)) pieces in
  if Train.add_eos a
  then <[(Z.to_nat (Train.max_seq_len a) - 1)%nat := 3]> pieces
  else pieces.

(** The encoded lines that [prepare_sequences] does not drop. *)
Definition kept (a : Train.args) (encoded : list (list Z)) : list (list Z) :=
  filter (fun pieces => Train.min_seq_len a ≤ Py.len pieces) encoded.

(** What [prepare_sequences] makes of a line it keeps, before the padding:
    a line longer than [max_seq_len] is cut, another one is left as it is. *)
Definition prepared (a : Train.args) (pieces : list Z) : list Z :=
  if bool_decide (Py.len pieces > Train.max_seq_len a) then cut a pieces
  else pieces.

(** A row padded with [value] up to [maxlen] columns, on the side that
    [padding] names. *)
Definition pad_side (padding : Keras.side) (maxlen value : Z) (r : list Z)
  : list Z :=
  match padding with
  | Keras.post => post_pad maxlen value r
  | Keras.pre => replicate (Z.to_nat maxlen - length r) value ++ r
  end.

(** The lines of a file that the on-disk loop does not skip. *)
Definition kept_lines (g : generator) (f : file) : file :=
  filter (fun l => min_seq_len g ≤ Py.len (line_ids l)) f.

(** What the on-disk loop appends to its block for a line it keeps: a line
    longer than [max_seq_len] has [3] written at index [max_seq_len - 1]. *)
Definition marked (g : generator) (ids : list Z) : list Z :=
  if bool_decide (Py.len ids > max_seq_len g)
  then <[Z.to_nat (max_seq_len g - 1) := 3]> ids
  else ids.

(** The generator [g] on another table or path. *)
Definition with_source (g : generator) (src : source) : generator :=
  {| x_sequences := src;
     explicit_seq_len := explicit_seq_len g;
     no_slurp := no_slurp g;
     max_seq_len := max_seq_len g;
     min_seq_len := min_seq_len g;
     num_shifted_sentences := num_shifted_sentences g;
     current_idx := current_idx g;
     skip_step := skip_step g;
     pad_idx_or_symbol := pad_idx_or_symbol g |}.

(** The row that the on-disk strategy makes of a line it keeps: the marked
    line, cut to [max_seq_len] ids and post-padded with the pad value. *)
Definition padded_line (g : generator) (ids : list Z) : list Z :=
  post_pad (max_seq_len g) (pad_idx_or_symbol g)
    (take (Z.to_nat (max_seq_len g)) (marked g ids)).

(** The arguments [a] with [no_slurp] set. *)
Definition streaming (a : Train.args) : Train.args :=
  {| Train.no_slurp := true;
     Train.min_seq_len := Train.min_seq_len a;
     Train.max_seq_len := Train.max_seq_len a;
     Train.add_eos := Train.add_eos a;
     Train.padding_direction := Train.padding_direction a;
     Train.num_sents_to_shift := Train.num_sents_to_shift a;
     Train.skip_step := Train.skip_step a |}.

(** ** Sample data *)

Module Sample.

(** Three padded sentences of four ids. *)
Definition table : rows :=
  [[10; 11; 12; 13]; [20; 21; 22; 23]; [30; 31; 32; 33]].

(** The same sentences as the lines of a file, twelve bytes each. *)
Definition corpus : file :=
  (fun ids => {| line_bytes := 12; line_ids := ids |}) <$> table.

(** A generator on [table], as [__init__] builds it: blocks of [n]
    sentences, a window every two ids. *)
Definition slurped (n : Z) : generator :=
  {| x_sequences := InMemory table; explicit_seq_len := 3; no_slurp := false;
     max_seq_len := 4; min_seq_len := 1; num_shifted_sentences := n;
     current_idx := 0; skip_step := 2; pad_idx_or_symbol := 1 |}.

(** The same on the file, with pad value [p]. *)
Definition streamed (n p : Z) : generator :=
  {| x_sequences := OnDisk "corpus.txt"; explicit_seq_len := 3; no_slurp := true;
     max_seq_len := 4; min_seq_len := 1; num_shifted_sentences := n;
     current_idx := 0; skip_step := 2; pad_idx_or_symbol := p |}.

(** A file of three sentences of different lengths, and the generators on
    it with pad value [0]: in memory on the sentences post-padded with [0],
    and on the file itself. *)
Definition ragged : file :=
  [ {| line_bytes := 9; line_ids := [10; 11; 12] |};
    {| line_bytes := 12; line_ids := [20; 21; 22; 23] |};
    {| line_bytes := 6; line_ids := [30; 31] |} ].

Definition slurped_ragged : generator :=
  {| x_sequences := InMemory [[10; 11; 12; 0]; [20; 21; 22; 23]; [30; 31; 0; 0]];
     explicit_seq_len := 3; no_slurp := false;
     max_seq_len := 4; min_seq_len := 2; num_shifted_sentences := 2;
     current_idx := 0; skip_step := 2; pad_idx_or_symbol := 0 |}.

Definition streamed_ragged : generator :=
  {| x_sequences := OnDisk "corpus.txt"; explicit_seq_len := 3; no_slurp := true;
     max_seq_len := 4; min_seq_len := 2; num_shifted_sentences := 2;
     current_idx := 0; skip_step := 2; pad_idx_or_symbol := 0 |}.

(** Ten encoded lines of three ids, for a preparer asked for at least three
    ids and at most two. *)
Definition lines : list (list Z) := replicate 10 [5; 6; 7].

Definition inverted : Train.args :=
  {| Train.no_slurp := false; Train.min_seq_len := 3; Train.max_seq_len := 2;
     Train.add_eos := true; Train.padding_direction := Keras.post;
     Train.num_sents_to_shift := 3; Train.skip_step := 1 |}.

(** The first batch of [slurped 2] and of [streamed 2 p], from the first
    two sentences: its rows before the last re-padding, and the batch. *)
Definition raw : rows * rows :=
  ([[10; 11; 12; 13]; [20; 21; 22; 23]; [12; 13]; [22; 23]],
   [[11; 12; 13]; [21; 22; 23]; [13]; [23]]).

Definition batch : rows * rows :=
  ([[10; 11; 12; 13]; [20; 21; 22; 23]; [12; 13; 1; 1]; [22; 23; 1; 1]],
   [[11; 12; 13; 1]; [21; 22; 23; 1]; [13; 1; 1; 1]; [23; 1; 1; 1]]).

(** The ids of a corpus of twelve lines: the second is empty, the fourth
    has six ids, the others two to four. *)
Definition mixed_ids : list (list Z) :=
  [[10; 11; 12]; []; [20; 21]; [30; 31; 32; 33; 34; 35]; [40; 41; 42; 43];
   [50; 51]; [60; 61; 62]; [70; 71]; [80; 81; 82]; [90; 91]; [92; 93];
   [94; 95; 96]].

(** The file of these ids, three bytes for an id and one for the end of
    the line. *)
Definition mixed : file :=
  (fun ids => {| line_bytes := Pos.of_succ_nat (3 * length ids);
                 line_ids := ids |}) <$> mixed_ids.

(** Arguments of a run on it: sentences of two to four ids, the end marker
    on the cut ones, padding behind, blocks of two, a window every two
    ids. *)
Definition plain_args : Train.args :=
  {| Train.no_slurp := false; Train.min_seq_len := 2; Train.max_seq_len := 4;
     Train.add_eos := true; Train.padding_direction := Keras.post;
     Train.num_sents_to_shift := 2; Train.skip_step := 2 |}.

(** The table that the preparer makes of [mixed_ids], and the generators
    that [main] builds: on the table, and on the file of twelve lines. *)
Definition mixed_table : rows :=
  [[10; 11; 12; 1]; [20; 21; 1; 1]; [30; 31; 32; 3]; [40; 41; 42; 43];
   [50; 51; 1; 1]; [60; 61; 62; 1]; [70; 71; 1; 1]; [80; 81; 82; 1];
   [90; 91; 1; 1]; [92; 93; 1; 1]; [94; 95; 96; 1]].

Definition mixed_slurped : generator :=
  {| x_sequences := InMemory mixed_table; explicit_seq_len := 11;
     no_slurp := false; max_seq_len := 4; min_seq_len := 2;
     num_shifted_sentences := 2; current_idx := 0; skip_step := 2;
     pad_idx_or_symbol := 1 |}.

Definition mixed_streamed : generator :=
  {| x_sequences := OnDisk "ids.txt"; explicit_seq_len := 12;
     no_slurp := true; max_seq_len := 4; min_seq_len := 2;
     num_shifted_sentences := 2; current_idx := 0; skip_step := 2;
     pad_idx_or_symbol := 1 |}.

(** A generator on [corpus] that keeps empty lines. *)
Definition lenient : generator :=
  {| x_sequences := OnDisk "corpus.txt"; explicit_seq_len := 3; no_slurp := true;
     max_seq_len := 4; min_seq_len := 0; num_shifted_sentences := 2;
     current_idx := 0; skip_step := 2; pad_idx_or_symbol := 0 |}.

(** A file whose second line holds a single id. *)
Definition lonely : file :=
  [ {| line_bytes := 9; line_ids := [10; 11; 12] |};
    {| line_bytes := 2; line_ids := [7] |};
    {| line_bytes := 6; line_ids := [30; 31] |} ].

End Sample.

(** ** Slices, items and division *)

Lemma floordiv_ok a b : b ≠ 0 → Py.floordiv a b = Ok (a `div` b).
Proof. intros Hb. unfold Py.floordiv. by rewrite bool_decide_false. Qed.

Lemma slice_from {A} (a : Z) (l : list A) :
  0 ≤ a → Py.slice (Some a) None l = drop (Z.to_nat a) l.
Proof.
  intros Ha. unfold Py.slice, Py.clamp, Py.len; simpl.
  rewrite bool_decide_false by lia.
  destruct (decide (a ≤ Z.of_nat (length l))) as [Hle|Hgt].
  - rewrite Z.min_l by lia. apply take_ge. rewrite length_drop. lia.
  - rewrite Z.min_r by lia. rewrite Nat2Z.id.
    rewrite !drop_ge by lia. by rewrite take_nil.
Qed.

Lemma slice_to {A} (b : Z) (l : list A) :
  0 ≤ b → Py.slice None (Some b) l = take (Z.to_nat b) l.
Proof.
  intros Hb. unfold Py.slice, Py.clamp, Py.len; simpl.
  rewrite bool_decide_false by lia. rewrite Z.sub_0_r.
  change (Z.to_nat 0) with 0%nat. rewrite drop_0.
  destruct (decide (b ≤ Z.of_nat (length l))) as [Hle|Hgt].
  - by rewrite Z.min_l by lia.
  - rewrite Z.min_r by lia. rewrite Nat2Z.id.
    rewrite take_ge by lia. rewrite take_ge by lia. done.
Qed.

Lemma slice_between {A} (a b : Z) (l : list A) :
  0 ≤ a → a ≤ b →
  Py.slice (Some a) (Some b) l = take (Z.to_nat (b - a)) (drop (Z.to_nat a) l).
Proof.
  intros Ha Hab. unfold Py.slice, Py.clamp, Py.len; simpl.
  rewrite !bool_decide_false by lia.
  destruct (decide (a ≤ Z.of_nat (length l))) as [Hle|Hgt].
  - rewrite (Z.min_l a) by lia.
    destruct (decide (b ≤ Z.of_nat (length l))).
    + by rewrite Z.min_l by lia.
    + rewrite Z.min_r by lia.
      rewrite !take_ge; [done|(rewrite length_drop; lia)..].
  - rewrite !Z.min_r by lia. rewrite Z.sub_diag.
    rewrite !drop_ge by lia. by rewrite !take_nil.
Qed.

Lemma slice_last {A} (m : nat) (l : list A) :
  (0 < m)%nat → Py.slice (Some (- Z.of_nat m)) None l = drop (length l - m) l.
Proof.
  intros Hm. unfold Py.slice, Py.clamp, Py.len; simpl.
  rewrite bool_decide_true by lia.
  destruct (decide (m ≤ length l)%nat).
  - rewrite Z.max_r by lia.
    replace (Z.to_nat (Z.of_nat (length l) + - Z.of_nat m)) with (length l - m)%nat by lia.
    apply take_ge. rewrite length_drop. lia.
  - rewrite Z.max_l by lia. simpl.
    replace (length l - m)%nat with 0%nat by lia.
    rewrite Z.sub_0_r, Nat2Z.id. by rewrite !drop_0, firstn_all.
Qed.

Lemma slice_length_le {A} (a b : option Z) (l : list A) :
  (length (Py.slice a b l) ≤ length l)%nat.
Proof.
  unfold Py.slice. rewrite length_take, length_drop. lia.
Qed.

Lemma slice_sublist {A} (a b : option Z) (l : list A) (x : A) :
  x ∈ Py.slice a b l → x ∈ l.
Proof.
  unfold Py.slice. intros H.
  apply list_elem_of_lookup in H as [i H].
  apply lookup_take_Some in H as [H _].
  rewrite lookup_drop in H. by eapply list_elem_of_lookup_2.
Qed.

Lemma index_ok {A} (l : list A) (i : Z) :
  0 ≤ i < Py.len l → Py.index l i = Ok (Z.to_nat i).
Proof.
  intros Hi. unfold Py.index.
  rewrite (bool_decide_false (i < 0)) by lia. by rewrite bool_decide_true.
Qed.

Lemma index_last {A} (l : list A) :
  l ≠ [] → Py.index l (-1) = Ok (length l - 1)%nat.
Proof.
  intros Hl. unfold Py.index, Py.len.
  assert (0 < length l)%nat by (destruct l; [done|simpl; lia]).
  rewrite (bool_decide_true (-1 < 0)) by lia. rewrite bool_decide_true by lia.
  f_equal. lia.
Qed.

(** ** [mapR] *)

Lemma mapR_ok {A B} (f : A → result B) (h : A → B) (l : list A) :
  Forall (fun a => f a = Ok (h a)) l → mapR f l = Ok (h <$> l).
Proof.
  induction 1 as [|a l Ha _ IH]; [done|].
  simpl. rewrite Ha. simpl. rewrite IH. done.
Qed.

Lemma mapR_inv {A B} (f : A → result B) (l : list A) (l' : list B) :
  mapR f l = Ok l' → Forall2 (fun a b => f a = Ok b) l l'.
Proof.
  revert l'. induction l as [|a l IH]; intros l'; simpl.
  - intros [= <-]. constructor.
  - destruct (f a) as [b|] eqn:Hb; [|done]. simpl.
    destruct (mapR f l) as [bs|]; [|done]. simpl.
    intros [= <-]. constructor; [done|]. by apply IH.
Qed.

(** ** [pad_sequences] *)

Lemma clamp_bounds len i : 0 ≤ len → 0 ≤ Py.clamp len i ≤ len.
Proof. intros Hl. unfold Py.clamp. case_bool_decide; lia. Qed.

Lemma setslice_length {A} (row : list A) a b src r :
  Np.setslice row a b src = Ok r → length r = length row.
Proof.
  unfold Np.setslice.
  set (a' := Z.to_nat (from_option (Py.clamp (Py.len row)) 0 a)).
  set (b' := Z.to_nat (from_option (Py.clamp (Py.len row)) (Py.len row) b)).
  assert (a' ≤ length row)%nat as Ha.
  { subst a'. destruct a as [i|]; simpl; [|lia].
    pose proof (clamp_bounds (Py.len row) i). unfold Py.len in *. lia. }
  assert (b' ≤ length row)%nat as Hb.
  { subst b'. destruct b as [i|]; simpl.
    - pose proof (clamp_bounds (Py.len row) i). unfold Py.len in *. lia.
    - unfold Py.len. lia. }
  case_bool_decide as Hn.
  - intros [= <-]. rewrite !length_app, length_take, length_drop. lia.
  - destruct src as [|v [|]]; try done.
    intros [= <-].
    rewrite !length_app, length_take, length_replicate, length_drop. lia.
Qed.

Lemma pad_row_length m p t v s r :
  Keras.pad_row m p t v s = Ok r → length r = m.
Proof.
  unfold Keras.pad_row. case_bool_decide.
  - intros [= <-]. apply length_replicate.
  - destruct p; intros Hr%setslice_length; by rewrite length_replicate in Hr.
Qed.

Lemma setslice_prefix {A} (row src : list A) :
  (length src ≤ length row)%nat →
  Np.setslice row None (Some (Py.len src)) src = Ok (src ++ drop (length src) row).
Proof.
  intros Hle. unfold Np.setslice; simpl.
  assert (Z.to_nat (Py.clamp (Py.len row) (Py.len src)) = length src) as ->.
  { unfold Py.clamp, Py.len. rewrite bool_decide_false by lia. lia. }
  change (Z.to_nat 0) with 0%nat. rewrite Nat.sub_0_r.
  by rewrite bool_decide_true by done.
Qed.

Lemma pad_row_post_post m v s :
  Keras.pad_row m Keras.post Keras.post v s
  = Ok (take m s ++ replicate (m - length s) v).
Proof.
  unfold Keras.pad_row. case_bool_decide as Hs.
  - subst s. by rewrite take_nil, Nat.sub_0_r.
  - rewrite slice_to by lia. rewrite Nat2Z.id.
    rewrite setslice_prefix by (rewrite length_replicate, length_take; lia).
    rewrite drop_replicate, length_take. do 3 f_equal. lia.
Qed.

Lemma pad_row_post_pre m v s :
  (length s ≤ m)%nat →
  Keras.pad_row m Keras.post Keras.pre v s = Ok (s ++ replicate (m - length s) v).
Proof.
  intros Hle. unfold Keras.pad_row. case_bool_decide as Hs.
  - subst s. by rewrite Nat.sub_0_r.
  - assert (0 < length s)%nat by (destruct s; [done|simpl; lia]).
    rewrite slice_last by lia.
    replace (length s - m)%nat with 0%nat by lia. rewrite drop_0.
    rewrite setslice_prefix by (rewrite length_replicate; lia).
    by rewrite drop_replicate.
Qed.

Lemma pad_sequences_shape rs m p t v out :
  Keras.pad_sequences rs m p t v = Ok out →
  0 ≤ m ∧ length out = length rs ∧ Forall (fun r => Py.len r = m) out.
Proof.
  unfold Keras.pad_sequences. case_bool_decide; [done|].
  intros Hf%mapR_inv. split; [lia|]. split.
  - symmetry. by eapply Forall2_length.
  - induction Hf as [|s r ?? Hr%pad_row_length _ IH]; constructor; [|done].
    unfold Py.len. lia.
Qed.

Lemma pad_sequences_post_pre rs m v :
  0 ≤ m → Forall (fun r => Py.len r ≤ m) rs →
  Keras.pad_sequences rs m Keras.post Keras.pre v = Ok (post_pad m v <$> rs).
Proof.
  intros Hm Hrs. unfold Keras.pad_sequences.
  rewrite bool_decide_false by lia. apply mapR_ok.
  eapply Forall_impl; [exact Hrs|]. intros r Hr. simpl in Hr.
  apply pad_row_post_pre. unfold Py.len in Hr. lia.
Qed.

Lemma pad_sequences_post_post rs m v :
  0 ≤ m →
  Keras.pad_sequences rs m Keras.post Keras.post v
  = Ok ((fun s => post_pad m v (take (Z.to_nat m) s)) <$> rs).
Proof.
  intros Hm. unfold Keras.pad_sequences.
  rewrite bool_decide_false by lia. apply mapR_ok.
  apply Forall_forall. intros s _. rewrite pad_row_post_post.
  unfold post_pad. rewrite length_take. do 3 f_equal. lia.
Qed.

Lemma post_pad_length m v r : Py.len r ≤ m → Py.len (post_pad m v r) = m.
Proof.
  unfold post_pad, Py.len. rewrite length_app, length_replicate. lia.
Qed.

(** ** The windowing loop *)

Lemma windows_acc block skip (l : list Z) (x0 y0 : rows) :
  foldl (fun '(x, y) window_idx =>
           let x_shifted := Py.slice (Some (window_idx * skip)) None <$> block in
           (x ++ x_shifted, y ++ (Py.slice (Some 1) None <$> x_shifted)))
        (x0, y0) l =
  (x0 ++ concat ((fun w => Py.slice (Some (w * skip)) None <$> block) <$> l),
   y0 ++ concat ((fun w => Py.slice (Some 1) None <$>
                       (Py.slice (Some (w * skip)) None <$> block)) <$> l)).
Proof.
  revert x0 y0. induction l as [|w l IH]; intros x0 y0; simpl.
  - by rewrite !app_nil_r.
  - rewrite IH. by rewrite !app_assoc.
Qed.

Lemma windows_unfold block skip n :
  windows block skip n =
  (concat ((fun w => Py.slice (Some (w * skip)) None <$> block) <$> Py.range n),
   concat ((fun w => Py.slice (Some 1) None <$>
                       (Py.slice (Some (w * skip)) None <$> block)) <$> Py.range n)).
Proof. unfold windows. by rewrite windows_acc. Qed.

Lemma windows_snd block skip n :
  (windows block skip n).2 = Py.slice (Some 1) None <$> (windows block skip n).1.
Proof.
  rewrite windows_unfold. cbn [fst snd].
  induction (Py.range n) as [|w l IH]; [done|].
  rewrite !fmap_cons. cbn [concat]. by rewrite fmap_app, IH.
Qed.

Lemma range_length n : length (Py.range n) = Z.to_nat n.
Proof. unfold Py.range. by rewrite length_fmap, length_seq. Qed.

Lemma windows_length block skip n :
  length (windows block skip n).1 = (Z.to_nat n * length block)%nat.
Proof.
  rewrite windows_unfold. cbn [fst snd]. rewrite <- range_length.
  induction (Py.range n) as [|w l IH]; [done|].
  rewrite fmap_cons. cbn [concat length].
  rewrite length_app, length_fmap, IH. lia.
Qed.

(** ** One iteration, taken apart *)

Lemma repad_inv g raw x y :
  repad g raw = Ok (x, y) →
  Keras.pad_sequences raw.1 (max_seq_len g) Keras.post Keras.pre 1 = Ok x ∧
  Keras.pad_sequences raw.2 (max_seq_len g) Keras.post Keras.pre 1 = Ok y.
Proof.
  unfold repad.
  destruct (Keras.pad_sequences raw.1 _ _ _ _) as [x'|]; [|done]. simpl.
  destruct (Keras.pad_sequences raw.2 _ _ _ _) as [y'|]; [|done]. simpl.
  by intros [= <- <-].
Qed.

Lemma next_slurped_inv g x y g' :
  next_slurped g = Ok ((x, y), g') →
  ∃ w raw,
    get_num_sliding_windows g = Ok w ∧ slurped_rows g w = Ok raw ∧
    repad g raw = Ok (x, y) ∧
    g' = set_current_idx g (wrap g + num_shifted_sentences g).
Proof.
  unfold next_slurped, get_num_sliding_windows.
  destruct (Py.floordiv _ _) as [w|]; [|done]. simpl.
  destruct (slurped_rows g w) as [raw|] eqn:Hraw; [|done]. simpl.
  destruct (repad g raw) as [b|] eqn:Hb; [|done]. simpl.
  intros [= -> <-]. by exists w, raw.
Qed.

Lemma next_disk_inv fuel g f pos x y pos' :
  next_disk fuel g f pos = Some (Ok ((x, y), pos')) →
  ∃ raw, disk_rows fuel g f pos = Some (Ok (raw, pos')) ∧ repad g raw = Ok (x, y).
Proof.
  unfold next_disk.
  destruct (disk_rows fuel g f pos) as [[[raw p]|]|] eqn:Hraw; [|done..].
  destruct (repad g raw) as [b|] eqn:Hb; [|done]. simpl.
  intros [= -> <-]. by exists raw.
Qed.

Lemma disk_rows_inv fuel g f pos raw pos' :
  disk_rows fuel g f pos = Some (Ok (raw, pos')) →
  ∃ w path x_local block,
    get_num_sliding_windows g = Ok w ∧ x_sequences g = OnDisk path ∧
    read_block fuel g f pos [] 0 = Some (Ok (x_local, pos')) ∧
    pad_block g x_local = Ok block ∧
    raw = windows block (skip_step g) w.
Proof.
  unfold disk_rows, get_num_sliding_windows.
  destruct (Py.floordiv _ _) as [w|]; [|done].
  destruct (x_sequences g) as [|path]; [done|].
  destruct (read_block fuel g f pos [] 0) as [[[xl p]|]|] eqn:Hread; [|done..].
  destruct (pad_block g xl) as [block|] eqn:Hb; [|done]. simpl.
  intros [= <- <-]. by exists w, path, xl, block.
Qed.

(** The rows of a batch come from rows no longer than [max_seq_len], so the
    last re-padding only appends the literal [1]. *)
Lemma repad_short g raw x y :
  Forall (fun r => Py.len r ≤ max_seq_len g) raw.1 →
  raw.2 = Py.slice (Some 1) None <$> raw.1 →
  repad g raw = Ok (x, y) →
  x = post_pad (max_seq_len g) 1 <$> raw.1 ∧
  y = post_pad (max_seq_len g) 1 <$> raw.2.
Proof.
  intros Hle Hy [Hx Hy']%repad_inv.
  pose proof Hx as (Hm & _ & _)%pad_sequences_shape.
  rewrite pad_sequences_post_pre in Hx by done.
  rewrite pad_sequences_post_pre in Hy'; [|done|].
  - by simplify_eq.
  - rewrite Hy. apply Forall_fmap. eapply Forall_impl; [exact Hle|].
    intros r Hr. simpl in *. pose proof (slice_length_le (Some 1) None r).
    unfold Py.len in *. lia.
Qed.

Lemma windows_fst_len block skip n (m : Z) :
  Forall (fun r => Py.len r ≤ m) block →
  Forall (fun r => Py.len r ≤ m) (windows block skip n).1.
Proof.
  intros Hb. rewrite windows_unfold. cbn [fst snd].
  induction (Py.range n) as [|w l IH]; [constructor|].
  rewrite fmap_cons. cbn [concat]. apply Forall_app. split; [|done].
  apply Forall_fmap. eapply Forall_impl; [exact Hb|].
  intros r Hr. simpl in *.
  pose proof (slice_length_le (Some (w * skip)) None r). unfold Py.len in *. lia.
Qed.

Lemma slurped_rows_fit g w raw :
  table_fits g → slurped_rows g w = Ok raw →
  Forall (fun r => Py.len r ≤ max_seq_len g) raw.1 ∧
  raw.2 = Py.slice (Some 1) None <$> raw.1.
Proof.
  unfold table_fits, slurped_rows. destruct (x_sequences g) as [table|path].
  - intros Ht [= <-]. split; [|apply windows_snd].
    apply windows_fst_len. rewrite Forall_forall in Ht |- *.
    intros r Hr%slice_sublist. by apply Ht.
  - intros _. case_bool_decide; [done|]. intros [= <-]. by split.
Qed.

Lemma disk_rows_fit fuel g f pos raw pos' :
  disk_rows fuel g f pos = Some (Ok (raw, pos')) →
  Forall (fun r => Py.len r ≤ max_seq_len g) raw.1 ∧
  raw.2 = Py.slice (Some 1) None <$> raw.1.
Proof.
  intros (w & path & xl & block & _ & _ & _ & Hb & ->)%disk_rows_inv.
  split; [|apply windows_snd].
  apply windows_fst_len.
  apply pad_sequences_shape in Hb as (_ & _ & Hb).
  eapply Forall_impl; [exact Hb|]. intros r Hr. simpl in *. lia.
Qed.

Lemma emits_repad g raw b :
  table_fits g → emits g raw b →
  Forall (fun r => Py.len r ≤ max_seq_len g) raw.1 ∧
  raw.2 = Py.slice (Some 1) None <$> raw.1 ∧
  repad g raw = Ok b.
Proof.
  intros Ht [w g' Hw Hraw Hnext|fuel f pos pos' Hraw Hnext]; destruct b as [x y].
  - apply next_slurped_inv in Hnext as (w' & raw' & Hw' & Hraw' & Hb & _).
    assert (w' = w) as -> by congruence.
    assert (raw' = raw) as -> by congruence.
    pose proof (slurped_rows_fit _ _ _ Ht Hraw) as [??]. done.
  - apply next_disk_inv in Hnext as (raw' & Hraw' & Hb).
    assert (raw' = raw) as -> by congruence.
    pose proof (disk_rows_fit _ _ _ _ _ _ Hraw) as [??]. done.
Qed.

Lemma emits_post_pad g raw x y :
  table_fits g → emits g raw (x, y) →
  x = post_pad (max_seq_len g) 1 <$> raw.1 ∧
  y = post_pad (max_seq_len g) 1 <$> raw.2.
Proof.
  intros Ht He. destruct (emits_repad _ _ _ Ht He) as (Hle & Hy & Hb).
  by eapply repad_short.
Qed.

Lemma post_pad_targets (m pad : Z) (raw : rows) :
  Forall (fun r => Py.len r ≤ m) raw →
  next_token_targets m pad raw
    (post_pad m pad <$> raw)
    (post_pad m pad <$> (Py.slice (Some 1) None <$> raw)).
Proof.
  intros Hle. unfold next_token_targets. rewrite !length_fmap.
  split; [done|]. split; [done|].
  intros i r Hi.
  exists (post_pad m pad r), (post_pad m pad (Py.slice (Some 1) None r)).
  rewrite !list_lookup_fmap, Hi. simpl. split; [done|]. split; [done|].
  rewrite Forall_forall in Hle.
  assert (Py.len r ≤ m) as Hr by (apply Hle; by eapply list_elem_of_lookup_2).
  rewrite slice_from by lia. change (Z.to_nat 1) with 1%nat.
  unfold post_pad, Py.len in *.
  intros k Hk. split.
  - intros Hlt. destruct (lookup_lt_is_Some_2 r (S k) Hlt) as [v Hv].
    exists v. split.
    + by rewrite lookup_app_l.
    + rewrite lookup_app_l by (rewrite length_drop; lia).
      by rewrite lookup_drop.
  - intros Hge. rewrite lookup_app_r by (rewrite length_drop; lia).
    apply lookup_replicate_2. rewrite !length_drop. lia.
Qed.

(** ** Next-token targets *)

(** C1. Whatever the strategy, a yielded batch [(x, y)] holds in row [i] of
    [y] the row [i] of [x] moved one column to the left: [y[i][k]] is
    [x[i][k+1]] as long as column [k+1] exists in the row before its
    re-padding, and the pad id [PAD_ID] from there on.  In memory the table
    is one of padded sequences, no wider than [max_seq_len]. *)
Theorem targets_shift_inputs g raw x y :
  table_fits g → emits g raw (x, y) →
  next_token_targets (max_seq_len g) Train.PAD_ID raw.1 x y.
Proof.
  intros Ht He.
  destruct (emits_repad _ _ _ Ht He) as (Hle & Hy & _).
  destruct (emits_post_pad _ _ _ _ Ht He) as [-> ->].
  rewrite Hy. by apply post_pad_targets.
Qed.

(** ** Sizing *)

Lemma init_inv src M m n p s e ns g :
  __init__ src M m n p s e ns = Ok g →
  s ≤ M ∧
  g = {| x_sequences := src; explicit_seq_len := or_len e src; no_slurp := ns;
         max_seq_len := M; min_seq_len := m; num_shifted_sentences := n;
         current_idx := 0; skip_step := s; pad_idx_or_symbol := p |}.
Proof.
  unfold __init__. case_bool_decide; [done|]. intros [= <-]. split; [lia|done].
Qed.

(** C2. On a constructed generator the four sizes are the quotient
    [max_seq_len // skip_step], its products with [num_shifted_sentences]
    and with [explicit_seq_len], and the quotient of these two products;
    the divisions are Python's, defined when the divisor is not zero. *)
Theorem sizing_formulas src M m n p s e ns g :
  __init__ src M m n p s e ns = Ok g →
  skip_step g ≠ 0 →
  ∃ w b ep,
    get_num_sliding_windows g = Ok w ∧ w = max_seq_len g `div` skip_step g ∧
    get_batch_size g = Ok b ∧ b = num_shifted_sentences g * w ∧
    get_epoch_size g = Ok ep ∧ ep = explicit_seq_len g * w ∧
    get_steps_per_epoch g = Py.floordiv ep b ∧
    (b ≠ 0 → get_steps_per_epoch g = Ok (ep `div` b)).
Proof.
  intros _ Hs.
  exists (max_seq_len g `div` skip_step g),
         (num_shifted_sentences g * (max_seq_len g `div` skip_step g)),
         (explicit_seq_len g * (max_seq_len g `div` skip_step g)).
  unfold get_steps_per_epoch, get_epoch_size, get_batch_size,
    get_num_sliding_windows.
  rewrite floordiv_ok by done. simpl.
  repeat split; try done. intros Hb. by apply floordiv_ok.
Qed.

(** C4. A skip step above [max_seq_len] makes the constructor raise, with
    or without slurping; a skip step equal to [max_seq_len] is accepted and,
    for a sequence length that is not zero, gives one sliding window. *)
Theorem skip_step_bound src M m n p s e ns :
  (s > M → __init__ src M m n p s e ns = Raise ValueError) ∧
  (s = M →
   ∃ g, __init__ src M m n p s e ns = Ok g ∧
        (M ≠ 0 → get_num_sliding_windows g = Ok 1)).
Proof.
  split.
  - intros Hs. unfold __init__. by rewrite bool_decide_true.
  - intros ->. unfold __init__. rewrite bool_decide_false by lia.
    eexists. split; [done|]. intros HM. unfold get_num_sliding_windows. simpl.
    rewrite floordiv_ok by done. by rewrite Z.div_same.
Qed.

(** ** The cursor *)

Lemma next_slurped_state g b g' :
  next_slurped g = Ok (b, g') →
  g' = set_current_idx g (wrap g + num_shifted_sentences g).
Proof.
  destruct b as [x y]. by intros (_ & _ & _ & _ & _ & ->)%next_slurped_inv.
Qed.

Lemma reachable_config g0 g : reachable g0 g → reset g = reset g0.
Proof.
  induction 1 as [|g b g' _ IH Hn]; [done|].
  apply next_slurped_state in Hn as ->. by rewrite <- IH.
Qed.

Lemma reachable_fields g0 g :
  reachable g0 g →
  x_sequences g = x_sequences g0 ∧ explicit_seq_len g = explicit_seq_len g0 ∧
  max_seq_len g = max_seq_len g0 ∧ skip_step g = skip_step g0 ∧
  num_shifted_sentences g = num_shifted_sentences g0.
Proof.
  intros H%reachable_config.
  repeat split.
  - by apply (f_equal x_sequences) in H.
  - by apply (f_equal explicit_seq_len) in H.
  - by apply (f_equal max_seq_len) in H.
  - by apply (f_equal skip_step) in H.
  - by apply (f_equal num_shifted_sentences) in H.
Qed.

Lemma wrap_cases g :
  (current_idx g + num_shifted_sentences g >= explicit_seq_len g ∧ wrap g = 0) ∨
  (current_idx g + num_shifted_sentences g < explicit_seq_len g ∧
   wrap g = current_idx g).
Proof. unfold wrap. case_bool_decide; [left|right]; split; (done || lia). Qed.

Lemma reachable_idx_nonneg g0 g :
  0 ≤ current_idx g0 → 0 ≤ num_shifted_sentences g0 →
  reachable g0 g → 0 ≤ current_idx g.
Proof.
  intros H0 Hn Hr. induction Hr as [|g b g' Hr IH Hnext]; [done|].
  destruct (reachable_fields _ _ Hr) as (_ & _ & _ & _ & Hn').
  apply next_slurped_state in Hnext as ->. simpl.
  destruct (wrap_cases g) as [[_ ->]|[_ ->]]; lia.
Qed.

(** C6, as the code has it. In memory, with a block smaller than the sentence
    count ([0 <= num_shifted_sentences < explicit_seq_len]), the cursor of
    every state reached from a constructed generator is in
    [[0, explicit_seq_len)]. *)
Theorem cursor_in_range src M m n p s e ns g0 g :
  __init__ src M m n p s e ns = Ok g0 →
  0 ≤ n < explicit_seq_len g0 →
  reachable g0 g →
  0 ≤ current_idx g < explicit_seq_len g.
Proof.
  intros [_ Hg0]%init_inv Hn Hr.
  assert (num_shifted_sentences g0 = n ∧ current_idx g0 = 0) as [Hn0 Hc0]
    by (by subst g0).
  induction Hr as [|g b g' Hr IH Hnext].
  - lia.
  - destruct (reachable_fields _ _ Hr) as (_ & He & _ & _ & Hn').
    apply next_slurped_state in Hnext as ->. simpl.
    destruct (wrap_cases g) as [[_ ->]|[? ->]]; lia.
Qed.

(** ** The first wrap *)

Lemma ceil_div_bounds a b :
  0 < b → (ceil_div a b - 1) * b < a ≤ ceil_div a b * b.
Proof.
  intros Hb. unfold ceil_div.
  pose proof (Z.div_mod (- a) b ltac:(lia)).
  pose proof (Z.mod_pos_bound (- a) b Hb). nia.
Qed.

Lemma run_slurped_S k g bs g' :
  run_slurped (S k) g = Ok (bs, g') →
  ∃ b g1 bs', next_slurped g = Ok (b, g1) ∧ run_slurped k g1 = Ok (bs', g') ∧
              bs = b :: bs'.
Proof.
  simpl. destruct (next_slurped g) as [[b g1]|] eqn:Hn; [|done]. simpl.
  destruct (run_slurped k g1) as [[bs' g2]|] eqn:Hr; [|done]. simpl.
  intros [= <- <-]. by exists b, g1, bs'.
Qed.

Lemma run_slurped_reachable k g bs g' :
  run_slurped k g = Ok (bs, g') → reachable g g'.
Proof.
  revert g bs. induction k as [|k IH]; intros g bs.
  - intros [= _ <-]. constructor.
  - intros (b & g1 & bs' & Hn & Hr & _)%run_slurped_S.
    apply IH in Hr. clear IH.
    induction Hr as [|g2 b2 g3 _ IH2 Hn2].
    + by eapply reach_yield; [constructor|].
    + by eapply reach_yield.
Qed.

(** As long as the blocks taken so far end before the last sentence, the
    cursor is the number of sentences taken. *)
Lemma run_slurped_before_wrap k g bs g' :
  0 ≤ num_shifted_sentences g →
  current_idx g + Z.of_nat k * num_shifted_sentences g < explicit_seq_len g →
  run_slurped k g = Ok (bs, g') →
  g' = set_current_idx g (current_idx g + Z.of_nat k * num_shifted_sentences g).
Proof.
  revert g bs. induction k as [|k IH]; intros g bs Hn Hlt.
  - intros [= _ <-]. destruct g; unfold set_current_idx; simpl in *. f_equal. lia.
  - intros (b & g1 & bs' & Hnext & Hr & _)%run_slurped_S.
    apply next_slurped_state in Hnext as ->.
    destruct (wrap_cases g) as [[? _]|[_ Hw]]; [nia|]. rewrite Hw in Hr.
    apply IH in Hr; simpl; [|lia..].
    subst g'. simpl. unfold set_current_idx; simpl. f_equal. lia.
Qed.

(** C7, as the code has it. In memory, with [num_shifted_sentences] and
    [explicit_seq_len] positive and [c = ceil(explicit_seq_len /
    num_shifted_sentences)]: after [j < c] batches the cursor is
    [j * num_shifted_sentences]; the wrap test fails at the head of the
    iterations before the [c]-th and succeeds at the head of the [c]-th,
    which resets the cursor and builds its batch from row [0]; after the
    [c]-th batch the cursor is [num_shifted_sentences]. *)
Theorem first_wrap_at_ceil src M m n p s e ns g0 (j : nat) bs g :
  __init__ src M m n p s e ns = Ok g0 →
  0 < n → 0 < explicit_seq_len g0 →
  run_slurped j g0 = Ok (bs, g) →
  let c := ceil_div (explicit_seq_len g0) n in
  (Z.of_nat j < c →
     current_idx g = Z.of_nat j * n ∧
     (Z.of_nat j + 1 < c → current_idx g + n < explicit_seq_len g ∧
                           wrap g = current_idx g) ∧
     (Z.of_nat j + 1 = c → current_idx g + n >= explicit_seq_len g ∧
                           wrap g = 0)) ∧
  (Z.of_nat j = c → current_idx g = n).
Proof.
  intros [_ Hg0]%init_inv Hn He Hrun c.
  assert (num_shifted_sentences g0 = n ∧ current_idx g0 = 0) as [Hn0 Hc0]
    by (by subst g0).
  pose proof (ceil_div_bounds (explicit_seq_len g0) n Hn) as Hc. fold c in Hc.
  assert (∀ (i : nat) bs' g1, Z.of_nat i < c → run_slurped i g0 = Ok (bs', g1) →
            g1 = set_current_idx g0 (Z.of_nat i * n)) as Hbefore.
  { intros i bs' g1 Hi Hr.
    apply run_slurped_before_wrap in Hr; [|lia|nia].
    rewrite Hr, Hc0, Hn0. f_equal. }
  split.
  - intros Hj. rewrite (Hbefore _ _ _ Hj Hrun). simpl. split; [done|].
    unfold wrap; simpl. rewrite Hn0. split; intros Hj'.
    + rewrite bool_decide_false by nia. split; [nia|done].
    + rewrite bool_decide_true by nia. split; [nia|done].
  - intros Hj. destruct j as [|j]; [lia|].
    clear Hbefore. revert Hrun.
    assert (∀ (k : nat) g1 bs1 g2,
              num_shifted_sentences g1 = n →
              explicit_seq_len g1 = explicit_seq_len g0 →
              current_idx g1 + Z.of_nat k * n < explicit_seq_len g0 →
              explicit_seq_len g0 ≤ current_idx g1 + (Z.of_nat k + 1) * n →
              run_slurped (S k) g1 = Ok (bs1, g2) → current_idx g2 = n) as Hgen.
    { induction k as [|k IH]; intros g1 bs1 g2 Hn1 He1 Hlt Hge.
      - intros (b & g3 & bs' & Hnext & Hr & _)%run_slurped_S.
        simpl in Hr. injection Hr as _ <-.
        apply next_slurped_state in Hnext as ->. simpl.
        destruct (wrap_cases g1) as [[_ ->]|[? _]]; lia.
      - intros (b & g3 & bs' & Hnext & Hr & _)%run_slurped_S.
        apply next_slurped_state in Hnext as ->.
        destruct (wrap_cases g1) as [[? _]|[_ Hw]]; [nia|]. rewrite Hw in Hr.
        apply IH in Hr; simpl; [done|done|done|lia|lia]. }
    apply Hgen; [done|done|lia|lia].
Qed.

(** ** Shapes *)

(** The inner loop of the on-disk strategy leaves with exactly the lines
    that were missing. *)
Lemma read_block_length fuel g f pos acc cnt xl pos' :
  cnt < num_shifted_sentences g →
  read_block fuel g f pos acc cnt = Some (Ok (xl, pos')) →
  Py.len xl = Py.len acc + (num_shifted_sentences g - cnt).
Proof.
  revert pos acc cnt. induction fuel as [|fuel IH]; intros pos acc cnt Hcnt; [done|].
  simpl.
  destruct (readline f _) as [text pos1].
  destruct (Np.genfromtxt text) as [|line]; [done|].
  case_bool_decide; [by apply IH|].
  destruct (if bool_decide (Py.len line > max_seq_len g) then _ else _)
    as [line'|]; [|done].
  case_bool_decide.
  - intros [= <- <-]. unfold Py.len. rewrite length_app. simpl. lia.
  - intros Hr%IH; [|lia]. rewrite Hr. unfold Py.len. rewrite length_app. simpl. lia.
Qed.

Lemma slurped_block_length g (table : rows) :
  0 ≤ current_idx g → 0 ≤ num_shifted_sentences g →
  num_shifted_sentences g ≤ Py.len table →
  explicit_seq_len g ≤ Py.len table →
  Py.len (Py.slice (Some (wrap g)) (Some (wrap g + num_shifted_sentences g)) table)
  = num_shifted_sentences g.
Proof.
  intros Hc Hn Hnt He.
  assert (0 ≤ wrap g ∧ wrap g + num_shifted_sentences g ≤ Py.len table) as [??].
  { destruct (wrap_cases g) as [[_ ->]|[? ->]]; lia. }
  rewrite slice_between by lia.
  unfold Py.len in *. rewrite length_take, length_drop. lia.
Qed.

Lemma repad_shape g raw x y :
  repad g raw = Ok (x, y) →
  0 ≤ max_seq_len g ∧
  has_shape x (Py.len raw.1) (max_seq_len g) ∧
  has_shape y (Py.len raw.2) (max_seq_len g).
Proof.
  intros [(Hm & Hx & Hxs)%pad_sequences_shape
          (_ & Hy & Hys)%pad_sequences_shape]%repad_inv.
  unfold has_shape, Py.len. rewrite Hx, Hy. done.
Qed.

Lemma windows_len (block : rows) skip w :
  0 ≤ w →
  Py.len (windows block skip w).1 = Py.len block * w ∧
  Py.len (windows block skip w).2 = Py.len block * w.
Proof.
  intros Hw. rewrite windows_snd. unfold Py.len.
  rewrite length_fmap, windows_length. lia.
Qed.

(** C3, as the code has it. With a positive skip step and a positive
    [num_shifted_sentences], and in memory a table that holds a full block,
    every batch yielded in a state reached from a constructed generator is a
    pair of arrays of shape [(batch_size, max_seq_len)], where [batch_size]
    is [num_shifted_sentences * (max_seq_len // skip_step)]. *)
Theorem batch_shape src M m n p s e ns g0 g raw x y :
  __init__ src M m n p s e ns = Ok g0 →
  0 < s → 0 < n →
  holds_block src n (explicit_seq_len g0) →
  reachable g0 g →
  emits g raw (x, y) →
  get_batch_size g = Ok (n * (M `div` s)) ∧
  has_shape x (n * (M `div` s)) M ∧
  has_shape y (n * (M `div` s)) M.
Proof.
  intros [_ Hg0]%init_inv Hs Hn Hsrc Hreach Hemit.
  destruct (reachable_fields _ _ Hreach) as (Hx & He & HM & Hsk & Hnn).
  assert (0 ≤ current_idx g) as Hcur.
  { eapply reachable_idx_nonneg; [| |exact Hreach]; subst g0; simpl; lia. }
  assert (x_sequences g = src ∧ max_seq_len g = M ∧ skip_step g = s ∧
          num_shifted_sentences g = n) as (Hx' & HM' & Hs' & Hn').
  { rewrite Hx, HM, Hsk, Hnn. by subst g0. }
  assert (get_num_sliding_windows g = Ok (M `div` s)) as Hw.
  { unfold get_num_sliding_windows. rewrite HM', Hs'. apply floordiv_ok. lia. }
  assert (get_batch_size g = Ok (n * (M `div` s))) as Hbs.
  { unfold get_batch_size. rewrite Hw. simpl. by rewrite Hn'. }
  split; [done|].
  assert (repad g raw = Ok (x, y) ∧ Py.len raw.1 = n * (M `div` s) ∧
          Py.len raw.2 = n * (M `div` s)) as (Hrepad & Hr1 & Hr2).
  { destruct Hemit as [w g' Hw' Hraw Hnext|fuel f pos pos' Hraw Hnext].
    - apply next_slurped_inv in Hnext as (w' & raw' & Hw'' & Hraw' & Hb & _).
      assert (w' = w) as -> by congruence.
      assert (raw' = raw) as -> by congruence.
      assert (w = M `div` s) as -> by congruence.
      split; [done|].
      pose proof Hb as (HM0 & _ & _)%repad_shape. rewrite HM' in HM0.
      assert (0 ≤ M `div` s) as Hdiv by (apply Z.div_pos; lia).
      unfold slurped_rows in Hraw. rewrite Hx' in Hraw.
      destruct src as [table|path].
      + injection Hraw as <-. destruct Hsrc as [Hnt Het].
        destruct (windows_len
          (Py.slice (Some (wrap g)) (Some (wrap g + num_shifted_sentences g)) table)
          (skip_step g) _ Hdiv) as [-> ->].
        rewrite slurped_block_length; [by rewrite Hn'|lia|lia|lia|].
        rewrite He. by subst g0.
      + case_bool_decide; [done|]. injection Hraw as <-.
        assert (M `div` s = 0) as -> by lia. simpl. unfold Py.len. simpl. lia.
    - apply next_disk_inv in Hnext as (raw' & Hraw' & Hb).
      assert (raw' = raw) as -> by congruence.
      split; [done|].
      pose proof Hb as (HM0 & _ & _)%repad_shape. rewrite HM' in HM0.
      assert (0 ≤ M `div` s) as Hdiv by (apply Z.div_pos; lia).
      apply disk_rows_inv in Hraw
        as (w & path & xl & block & Hw' & _ & Hread & Hblock & ->).
      assert (w = M `div` s) as -> by congruence.
      apply read_block_length in Hread; [|lia].
      apply pad_sequences_shape in Hblock as (_ & Hbl & _).
      destruct (windows_len block (skip_step g) _ Hdiv) as [-> ->].
      unfold Py.len in *. simpl in Hread. rewrite Hbl. lia. }
  apply repad_shape in Hrepad as (_ & Hxs & Hys).
  rewrite Hr1, HM' in Hxs. rewrite Hr2, HM' in Hys. done.
Qed.

(** ** The end of the file *)

Lemma bytes_nonneg f : 0 ≤ bytes f.
Proof. induction f as [|l f IH]; simpl; lia. Qed.

Lemma bytes_app f1 f2 : bytes (f1 ++ f2) = bytes f1 + bytes f2.
Proof. induction f1 as [|l f1 IH]; simpl; lia. Qed.

(** The read position never passes the size of the file, so the test that
    guards [fd.seek(0)] never succeeds. *)
Lemma tell_le_getsize f pos : tell f pos ≤ getsize f.
Proof.
  unfold tell, getsize. rewrite <- (take_drop pos f) at 2.
  rewrite bytes_app. pose proof (bytes_nonneg (drop pos f)). lia.
Qed.

Lemma no_seek f pos :
  (if bool_decide (tell f pos > getsize f) then 0%nat else pos) = pos.
Proof. pose proof (tell_le_getsize f pos). by rewrite bool_decide_false by lia. Qed.

(** Once every line is read, the inner loop reads the empty text for ever. *)
Lemma read_block_at_eof fuel g f pos acc cnt :
  (length f ≤ pos)%nat → 0 < min_seq_len g →
  read_block fuel g f pos acc cnt = None.
Proof.
  intros Hpos Hmin. induction fuel as [|fuel IH]; [done|].
  simpl. rewrite no_seek. unfold readline.
  rewrite lookup_ge_None_2 by done. simpl.
  by rewrite bool_decide_true by (unfold Py.len; simpl; lia).
Qed.

Lemma next_disk_at_eof fuel g f pos path :
  x_sequences g = OnDisk path → skip_step g ≠ 0 →
  (length f ≤ pos)%nat → 0 < min_seq_len g →
  next_disk fuel g f pos = None.
Proof.
  intros Hx Hs Hpos Hmin. unfold next_disk, disk_rows.
  rewrite floordiv_ok by done. rewrite Hx.
  by rewrite read_block_at_eof.
Qed.

(** C8, on the code. On the sample file of three lines, read one line per
    batch: the first three batches are yielded, and then no amount of fuel
    lets the fourth request return, the read position standing at the size
    of the file without exceeding it. *)
Theorem disk_stream_stuck_at_eof :
  (∃ bs, run_disk 1 3 (Sample.streamed 1 1) Sample.corpus 0
         = Some (Ok (bs, 3%nat))) ∧
  tell Sample.corpus 3 = getsize Sample.corpus ∧
  ∀ fuel, next_disk fuel (Sample.streamed 1 1) Sample.corpus 3 = None.
Proof.
  split; [|split].
  - eexists. vm_compute. reflexivity.
  - reflexivity.
  - intros fuel. by eapply next_disk_at_eof.
Qed.

(** ** The two strategies on the same sentences *)

Lemma repad_ok g (block : rows) skip w :
  0 ≤ max_seq_len g →
  Forall (fun r => Py.len r ≤ max_seq_len g) block →
  repad g (windows block skip w)
  = Ok (post_pad (max_seq_len g) 1 <$> (windows block skip w).1,
        post_pad (max_seq_len g) 1 <$> (windows block skip w).2).
Proof.
  intros HM Hb. unfold repad.
  pose proof (windows_fst_len block skip w _ Hb) as H1.
  rewrite (pad_sequences_post_pre _ _ 1 HM H1). simpl.
  rewrite pad_sequences_post_pre; [done|done|].
  rewrite windows_snd. apply Forall_fmap.
  eapply Forall_impl; [exact H1|]. intros r Hr. simpl in *.
  pose proof (slice_length_le (Some 1) None r). unfold Py.len in *. lia.
Qed.

(** In memory, on a table of padded sequences and with a skip step that is
    not zero, a batch is yielded at every request. *)
Lemma next_slurped_total g table :
  x_sequences g = InMemory table → table_fits g →
  skip_step g ≠ 0 → 0 ≤ max_seq_len g →
  ∃ b, next_slurped g
       = Ok (b, set_current_idx g (wrap g + num_shifted_sentences g)).
Proof.
  intros Hx Ht Hs HM. unfold next_slurped, slurped_rows.
  rewrite floordiv_ok by done. cbn [mbind result_bind]. rewrite Hx.
  cbn [mbind result_bind]. rewrite repad_ok; [by eexists|done|].
  unfold table_fits in Ht. rewrite Hx in Ht.
  rewrite Forall_forall in Ht |- *. intros r Hr%slice_sublist. by apply Ht.
Qed.

Lemma genfromtxt_vector ids :
  length ids ≠ 1%nat → Np.genfromtxt ids = Np.Vector ids.
Proof. by destruct ids as [|v [|]]. Qed.

(** Where the next [k] lines are plain, the inner loop takes them one
    after the other. *)
Lemma read_block_lines g f (k : nat) : ∀ fuel pos acc cnt,
  Forall (plain_line g) f →
  (0 < k)%nat → Z.of_nat k = num_shifted_sentences g - cnt →
  (k ≤ fuel)%nat → (pos + k ≤ length f)%nat →
  read_block fuel g f pos acc cnt
  = Some (Ok (acc ++ (line_ids <$> take k (drop pos f)), (pos + k)%nat)).
Proof.
  induction k as [|k IH]; intros fuel pos acc cnt Hf Hk Hcnt Hfuel Hpos; [lia|].
  destruct fuel as [|fuel]; [lia|].
  destruct (lookup_lt_is_Some_2 f pos ltac:(lia)) as [l Hl].
  assert (plain_line g l) as [Hlen Hone].
  { rewrite Forall_forall in Hf. apply Hf. by eapply list_elem_of_lookup_2. }
  simpl. rewrite no_seek. unfold readline. rewrite Hl.
  rewrite genfromtxt_vector by (unfold Py.len in Hone; lia).
  rewrite bool_decide_false by lia.
  rewrite (bool_decide_false (_ > _)) by lia.
  rewrite (drop_S _ _ _ Hl). rewrite firstn_cons, fmap_cons.
  destruct k as [|k].
  - rewrite bool_decide_true by lia. rewrite take_0. simpl.
    do 3 f_equal. lia.
  - rewrite bool_decide_false by lia.
    rewrite IH; [|done|lia|lia|lia|lia].
    rewrite <- app_assoc. simpl. do 3 f_equal. lia.
Qed.

(** The padding of a block of lines no longer than [max_seq_len]. *)
Lemma pad_block_short g (block : rows) :
  0 ≤ max_seq_len g →
  Forall (fun r => Py.len r ≤ max_seq_len g) block →
  pad_block g block = Ok (post_pad (max_seq_len g) (pad_idx_or_symbol g) <$> block).
Proof.
  intros HM Hb. unfold pad_block. rewrite pad_sequences_post_post by done.
  f_equal. apply Forall_fmap_ext. eapply Forall_impl; [exact Hb|].
  intros r Hr. simpl in *.
  by rewrite take_ge by (unfold Py.len in Hr; lia).
Qed.

Section Agreement.

Variables (f : file) (gm gd : generator) (path : string).

Hypothesis in_memory :
  x_sequences gm
  = InMemory (post_pad (max_seq_len gd) (pad_idx_or_symbol gd) <$> (line_ids <$> f)).
Hypothesis on_disk : x_sequences gd = OnDisk path.
Hypothesis count : explicit_seq_len gm = Py.len f.
Hypothesis same_max : max_seq_len gm = max_seq_len gd.
Hypothesis same_skip : skip_step gm = skip_step gd.
Hypothesis same_block : num_shifted_sentences gm = num_shifted_sentences gd.
Hypothesis plain : Forall (plain_line gd) f.
Hypothesis skip_pos : 0 < skip_step gd.
Hypothesis block_pos : 0 < num_shifted_sentences gd.

(** One batch from sentence [pos] on, before the sentences are exhausted. *)
Lemma step_agrees (pos : nat) :
  Z.of_nat pos + num_shifted_sentences gd < Py.len f →
  ∃ b, next_slurped (set_current_idx gm (Z.of_nat pos))
       = Ok (b, set_current_idx gm
                  (Z.of_nat (pos + Z.to_nat (num_shifted_sentences gd)))) ∧
       ∀ fuel, (Z.to_nat (num_shifted_sentences gd) ≤ fuel)%nat →
         next_disk fuel gd f pos
         = Some (Ok (b, (pos + Z.to_nat (num_shifted_sentences gd))%nat)).
Proof.
  intros Hpos. unfold Py.len in Hpos.
  set (lines := take (Z.to_nat (num_shifted_sentences gd))
                     (drop pos (line_ids <$> f))).
  set (block := post_pad (max_seq_len gd) (pad_idx_or_symbol gd) <$> lines).
  assert (Forall (fun r => Py.len r ≤ max_seq_len gd) (line_ids <$> f)) as Hshort.
  { apply Forall_fmap. eapply Forall_impl; [exact plain|].
    intros l [Hl _]. simpl. lia. }
  assert (0 ≤ max_seq_len gd) as HM.
  { destruct f as [|l ?]; [simpl in Hpos; lia|].
    apply Forall_cons in plain as [[Hl _] _]. unfold Py.len in Hl. lia. }
  assert (Forall (fun r => Py.len r ≤ max_seq_len gd) lines) as Hlines.
  { subst lines. rewrite Forall_forall in Hshort |- *.
    intros r Hr. apply Hshort.
    apply list_elem_of_lookup in Hr as [i Hr].
    apply lookup_take_Some in Hr as [Hr _]. rewrite lookup_drop in Hr.
    by eapply list_elem_of_lookup_2. }
  assert (Forall (fun r => Py.len r ≤ max_seq_len gd) block) as Hblock.
  { subst block. apply Forall_fmap. eapply Forall_impl; [exact Hlines|].
    intros r Hr. simpl in *. rewrite post_pad_length by done. lia. }
  pose proof (repad_ok gd block (skip_step gd)
                (max_seq_len gd `div` skip_step gd) HM Hblock) as Hrepad.
  eexists. split.
  - unfold next_slurped. cbn [max_seq_len skip_step set_current_idx].
    rewrite same_max, same_skip.
    rewrite floordiv_ok by lia. cbn [mbind result_bind].
    unfold slurped_rows. cbn [x_sequences set_current_idx]. rewrite in_memory.
    assert (wrap (set_current_idx gm (Z.of_nat pos)) = Z.of_nat pos) as ->.
    { unfold wrap. simpl. rewrite count, same_block. unfold Py.len.
      by rewrite bool_decide_false by lia. }
    cbn [num_shifted_sentences skip_step set_current_idx].
    rewrite same_block, same_skip.
    rewrite slice_between by lia.
    replace (Z.to_nat (Z.of_nat pos + num_shifted_sentences gd - Z.of_nat pos))
      with (Z.to_nat (num_shifted_sentences gd)) by lia.
    rewrite Nat2Z.id. rewrite <- fmap_drop, <- fmap_take. fold lines. fold block.
    cbn [mbind result_bind].
    assert (repad (set_current_idx gm (Z.of_nat pos)) = repad gd) as ->.
    { unfold repad. cbn [max_seq_len set_current_idx]. by rewrite same_max. }
    rewrite Hrepad. cbn [mbind result_bind].
    do 2 f_equal. unfold set_current_idx. simpl. f_equal. lia.
  - intros fuel Hfuel. unfold next_disk, disk_rows.
    rewrite floordiv_ok by lia. rewrite on_disk.
    rewrite (read_block_lines gd f (Z.to_nat (num_shifted_sentences gd)));
      [|done|lia|lia|done|lia].
    rewrite app_nil_l. rewrite fmap_take, fmap_drop. fold lines.
    rewrite pad_block_short by done. fold block.
    cbn [mbind result_bind]. rewrite Hrepad. done.
Qed.

(** The first [k] batches from sentence [pos] on. *)
Lemma run_agrees (k : nat) : ∀ pos : nat,
  Z.of_nat pos + Z.of_nat k * num_shifted_sentences gd < Py.len f →
  ∃ bs g, run_slurped k (set_current_idx gm (Z.of_nat pos)) = Ok (bs, g) ∧
          ∀ fuel, (Z.to_nat (num_shifted_sentences gd) ≤ fuel)%nat →
            ∃ pos', run_disk fuel k gd f pos = Some (Ok (bs, pos')).
Proof.
  induction k as [|k IH]; intros pos Hpos.
  - exists [], (set_current_idx gm (Z.of_nat pos)). split; [done|].
    intros fuel _. by exists pos.
  - destruct (step_agrees pos) as (b & Hm & Hd); [nia|].
    destruct (IH (pos + Z.to_nat (num_shifted_sentences gd))%nat)
      as (bs & g & Hrun & Hdisk); [nia|].
    exists (b :: bs), g. split.
    + simpl. rewrite Hm. simpl. rewrite Hrun. done.
    + intros fuel Hfuel. destruct (Hdisk fuel Hfuel) as [pos' Hpos'].
      exists pos'. simpl. rewrite (Hd fuel Hfuel). by rewrite Hpos'.
Qed.

End Agreement.


(** The bound on [k] is where the in-memory strategy wraps: of three
    sentences taken one at a time, the on-disk strategy yields the third as
    its third batch, the in-memory strategy the first one again. *)
Example strategies_part_at_wrap :
  ∃ bs g bs' pos,
    run_slurped 3 (Sample.slurped 1) = Ok (bs, g) ∧
    run_disk 1 3 (Sample.streamed 1 1) Sample.corpus 0 = Some (Ok (bs', pos)) ∧
    take 2 bs' = take 2 bs ∧ bs !! 2%nat = bs !! 0%nat ∧
    bs' !! 2%nat
    = Some ([[30; 31; 32; 33]; [32; 33; 1; 1]], [[31; 32; 33; 1]; [33; 1; 1; 1]]) ∧
    bs' !! 2%nat ≠ bs !! 2%nat.
Proof.
  eexists _, _, _, _. split; [vm_compute; reflexivity|].
  split; [vm_compute; reflexivity|]. by repeat split.
Qed.

(** ** The pad value *)

Lemma next_slurped_with_pad g p :
  next_slurped (with_pad g p)
  = match next_slurped g with
    | Ok (b, g') => Ok (b, with_pad g' p)
    | Raise e => Raise e
    end.
Proof.
  unfold next_slurped.
  change (max_seq_len (with_pad g p)) with (max_seq_len g).
  change (skip_step (with_pad g p)) with (skip_step g).
  destruct (Py.floordiv _ _) as [w|]; [|done]. cbn [mbind result_bind].
  change (slurped_rows (with_pad g p) w) with (slurped_rows g w).
  destruct (slurped_rows g w) as [raw|]; [|done]. cbn [mbind result_bind].
  change (repad (with_pad g p) raw) with (repad g raw).
  destruct (repad g raw) as [b|]; [|done]. done.
Qed.

Lemma run_slurped_with_pad p k : ∀ g,
  yielded (run_slurped k (with_pad g p)) = yielded (run_slurped k g).
Proof.
  induction k as [|k IH]; intros g; [done|].
  simpl. rewrite next_slurped_with_pad.
  destruct (next_slurped g) as [[b g1]|]; [|done]. cbn [mbind result_bind].
  specialize (IH g1). unfold yielded in *.
  destruct (run_slurped k (with_pad g1 p)) as [[bs1 ?]|],
           (run_slurped k g1) as [[bs2 ?]|]; simpl in *; congruence.
Qed.

Lemma post_pad_cell m v r (k : nat) :
  (length r ≤ k)%nat → Z.of_nat k < m → post_pad m v r !! k = Some v.
Proof.
  intros Hk Hm. unfold post_pad. rewrite lookup_app_r by done.
  apply lookup_replicate_2. lia.
Qed.


(** ** The sequence preparer *)

Lemma setslice_suffix {A} (row src : list A) :
  length src = length row → src ≠ [] →
  Np.setslice row (Some (- Py.len src)) None src = Ok src.
Proof.
  intros Hlen Hsrc. unfold Np.setslice; simpl.
  assert (0 < length src)%nat by (destruct src; [done|simpl; lia]).
  assert (Z.to_nat (Py.clamp (Py.len row) (- Py.len src)) = 0%nat) as ->.
  { unfold Py.clamp, Py.len. rewrite bool_decide_true by lia. lia. }
  unfold Py.len. rewrite Nat2Z.id, Nat.sub_0_r.
  rewrite bool_decide_true by done. simpl.
  rewrite drop_ge by lia. by rewrite app_nil_r.
Qed.

Lemma pad_row_full m p v s :
  length s = m → Keras.pad_row m p Keras.pre v s = Ok s.
Proof.
  intros Hlen. unfold Keras.pad_row. case_bool_decide as Hs.
  - subst s. simpl in Hlen. by subst m.
  - assert (0 < m)%nat by (destruct s; [done|simpl in Hlen; lia]).
    rewrite slice_last by done.
    replace (length s - m)%nat with 0%nat by lia. rewrite drop_0.
    destruct p.
    + apply setslice_suffix; [by rewrite length_replicate|done].
    + rewrite setslice_prefix by (rewrite length_replicate; lia).
      rewrite drop_replicate. replace (m - length s)%nat with 0%nat by lia.
      by rewrite app_nil_r.
Qed.

Lemma log_first_ten_ok (xs : list (list Z)) :
  (10 ≤ length xs)%nat → Train.log_first_ten xs = Ok tt.
Proof.
  intros Hlen. unfold Train.log_first_ten.
  rewrite (mapR_ok _ Z.to_nat); [done|].
  apply Forall_forall. intros i Hi. apply index_ok.
  unfold Py.range in Hi. apply list_elem_of_fmap in Hi as (j & -> & Hj).
  apply elem_of_seq in Hj. unfold Py.len. lia.
Qed.

Section PreparerFacts.

Context {text : Type} (encode_as_ids : text → list Z) (a : Train.args).

Hypothesis max_pos : 0 < Train.max_seq_len a.
Hypothesis min_above_max : Train.min_seq_len a > Train.max_seq_len a.

Lemma cut_length pieces :
  Train.min_seq_len a ≤ Py.len pieces →
  Py.len (cut a pieces) = Train.max_seq_len a.
Proof.
  intros Hp. unfold cut, Py.len in *.
  destruct (Train.add_eos a); rewrite ?length_insert, length_take; lia.
Qed.

Lemma prepare_lines_cut corpus : ∀ acc,
  Train.prepare_lines encode_as_ids a acc corpus
  = Ok (acc ++ (cut a <$> kept a (encode_as_ids <$> corpus))).
Proof.
  unfold kept. induction corpus as [|line corpus IH]; intros acc; simpl.
  - by rewrite app_nil_r.
  - unfold Train.prepare_line. case_bool_decide as Hlen.
    + cbn [mbind result_bind]. rewrite IH.
      by rewrite filter_cons_False by lia.
    + rewrite bool_decide_true by lia.
      rewrite filter_cons_True by lia.
      rewrite slice_between by lia. rewrite Z.sub_0_r.
      change (Z.to_nat 0) with 0%nat. rewrite drop_0.
      assert (length (take (Z.to_nat (Train.max_seq_len a)) (encode_as_ids line))
              = Z.to_nat (Train.max_seq_len a)) as Htake.
      { rewrite length_take. unfold Py.len in *. lia. }
      assert ((if Train.add_eos a
               then Py.setitem (take (Z.to_nat (Train.max_seq_len a))
                                     (encode_as_ids line)) (-1) 3
               else Ok (take (Z.to_nat (Train.max_seq_len a)) (encode_as_ids line)))
              = Ok (cut a (encode_as_ids line))) as ->.
      { unfold cut. destruct (Train.add_eos a); [|done].
        unfold Py.setitem. rewrite index_last.
        - cbn [mbind result_bind]. by rewrite Htake.
        - intros Hnil. rewrite Hnil in Htake. simpl in Htake. lia. }
      cbn [mbind result_bind]. rewrite IH.
      rewrite fmap_cons. by rewrite <- app_assoc.
Qed.

End PreparerFacts.

(** C5, as the code has it. The preparer does not compare [min_seq_len]
    with [max_seq_len] and raises no configuration error: with
    [0 < max_seq_len < min_seq_len] and ten lines or more of at least
    [min_seq_len] ids, it returns the table of exactly those lines, each cut
    to its first [max_seq_len] ids, the last of them replaced by [3] when
    [add_eos] is set. *)
Theorem preparer_has_no_length_check {text : Type}
    (encode_as_ids : text → list Z) (a : Train.args) (corpus : list text) :
  0 < Train.max_seq_len a →
  Train.min_seq_len a > Train.max_seq_len a →
  (10 ≤ length (kept a (encode_as_ids <$> corpus)))%nat →
  Train.prepare_sequences encode_as_ids a corpus
  = Ok (cut a <$> kept a (encode_as_ids <$> corpus)).
Proof.
  intros HM Hm Hten. unfold Train.prepare_sequences.
  rewrite prepare_lines_cut by done. cbn [mbind result_bind]. rewrite app_nil_l.
  rewrite log_first_ten_ok by (by rewrite length_fmap).
  cbn [mbind result_bind]. unfold Keras.pad_sequences.
  rewrite bool_decide_false by lia.
  rewrite (mapR_ok _ id); [by rewrite list_fmap_id|].
  apply Forall_fmap, Forall_forall. intros ps Hps.
  apply list_elem_of_filter in Hps as [Hps _]. simpl.
  apply pad_row_full.
  pose proof (cut_length a HM Hm ps Hps) as Hc. unfold Py.len in Hc. lia.
Qed.

(** ** The generator in the program *)

(** X4. With windows and a block that are not empty, the steps of an epoch are
    the sentences divided by the sentences of a block, whatever the number
    of windows. *)
Lemma steps_per_epoch_cancel g :
  skip_step g ≠ 0 → max_seq_len g `div` skip_step g ≠ 0 →
  num_shifted_sentences g ≠ 0 →
  get_steps_per_epoch g
  = Ok (explicit_seq_len g `div` num_shifted_sentences g).
Proof.
  intros Hs Hw Hn.
  unfold get_steps_per_epoch, get_epoch_size, get_batch_size,
    get_num_sliding_windows.
  rewrite floordiv_ok by done. cbn [mbind result_bind].
  rewrite floordiv_ok by lia. by rewrite Z.div_mul_cancel_r.
Qed.

(** Every batch of [generate] is one that [emits] describes. *)
Lemma next_batch_emits fuel g f pos b st :
  next_batch fuel g f pos = Some (Ok (b, st)) → ∃ raw, emits g raw b.
Proof.
  unfold next_batch. destruct (no_slurp g).
  - destruct (next_disk fuel g f pos) as [[[b' pos']|]|] eqn:Hn; [|done..].
    intros [= -> <-]. destruct b as [x y].
    pose proof Hn as (raw & Hraw & _)%next_disk_inv.
    exists raw. by eapply emits_disk.
  - destruct (next_slurped g) as [[b' g']|] eqn:Hn; [|done].
    cbn [mbind result_bind]. intros [= -> <-]. destruct b as [x y].
    pose proof Hn as (w & raw & Hw & Hraw & _)%next_slurped_inv.
    exists raw. by eapply emits_slurped.
Qed.

(** X17. What [main] guarantees of the generator it builds: the pad value is
    [PAD_ID], the skip step and the block are not zero, and in memory the
    table is the prepared one, of [explicit_seq_len] rows of [max_seq_len]
    ids. *)
Lemma batch_generator_facts {text : Type} (encode_as_ids : text → list Z)
    (a : Train.args) (corpus : list text) (corpus_path : string) (wc_l : Z) g :
  Train.batch_generator encode_as_ids a corpus corpus_path wc_l = Ok g →
  pad_idx_or_symbol g = Train.PAD_ID ∧
  skip_step g ≠ 0 ∧ num_shifted_sentences g ≠ 0 ∧
  table_fits g ∧
  (Train.no_slurp a = false →
   ∃ table, x_sequences g = InMemory table ∧
            explicit_seq_len g = Py.len table ∧
            Forall (fun row => Py.len row = max_seq_len g) table).
Proof.
  unfold Train.batch_generator.
  assert (∀ v d, d ≠ 0 → Train.or_else v d ≠ 0) as Hor.
  { intros v d Hd. unfold Train.or_else. by case_bool_decide. }
  destruct (Train.no_slurp a).
  - cbn [mbind result_bind]. intros [_ ->]%init_inv. simpl.
    repeat split; try done; by apply Hor.
  - destruct (Train.prepare_sequences encode_as_ids a corpus) as [t|] eqn:Ht;
      [|done].
    cbn [mbind result_bind]. intros [_ ->]%init_inv. simpl.
    unfold Train.prepare_sequences in Ht.
    destruct (Train.prepare_lines _ _ _ _) as [xs|]; [|done].
    cbn [mbind result_bind] in Ht.
    destruct (Train.log_first_ten xs); [|done]. cbn [mbind result_bind] in Ht.
    apply pad_sequences_shape in Ht as (_ & _ & Hrows).
    repeat split; try done; try (by apply Hor).
    + unfold table_fits. simpl. eapply Forall_impl; [exact Hrows|].
      intros r Hr. simpl in *. lia.
    + intros _. by exists t.
Qed.

(** A file with a short line, streamed with pad value [0]: the block is
    padded with [0], the rows of the batch with [1]. *)
Example mixed_padding :
  next_disk 2 Sample.streamed_ragged Sample.ragged 0
  = Some (Ok (([[10; 11; 12; 0]; [20; 21; 22; 23]; [12; 0; 1; 1]; [22; 23; 1; 1]],
               [[11; 12; 0; 1]; [21; 22; 23; 1]; [0; 1; 1; 1]; [23; 1; 1; 1]]),
              2%nat)).
Proof. reflexivity. Qed.

(** ** The theorems on the sample data *)

Lemma targets_shift_inputs_witness :
  next_token_targets 4 Train.PAD_ID Sample.raw.1 Sample.batch.1 Sample.batch.2.
Proof.
  apply (targets_shift_inputs (Sample.slurped 2) Sample.raw).
  - unfold table_fits; simpl. repeat constructor; by vm_compute.
  - eapply (emits_slurped _ _ _ 2); reflexivity.
Defined.

Lemma sizing_formulas_witness :
  ∃ w b ep,
    get_num_sliding_windows (Sample.slurped 2) = Ok w ∧ w = 4 `div` 2 ∧
    get_batch_size (Sample.slurped 2) = Ok b ∧ b = 2 * w ∧
    get_epoch_size (Sample.slurped 2) = Ok ep ∧ ep = 3 * w ∧
    get_steps_per_epoch (Sample.slurped 2) = Py.floordiv ep b ∧
    (b ≠ 0 → get_steps_per_epoch (Sample.slurped 2) = Ok (ep `div` b)).
Proof.
  apply (sizing_formulas (InMemory Sample.table) 4 1 2 1 2 None false).
  - reflexivity.
  - simpl. lia.
Defined.

Lemma skip_step_bound_witness :
  __init__ (InMemory Sample.table) 4 1 2 1 5 None false = Raise ValueError ∧
  ∃ g, __init__ (InMemory Sample.table) 4 1 2 1 4 None false = Ok g ∧
       (4 ≠ 0 → get_num_sliding_windows g = Ok 1).
Proof.
  split.
  - apply (proj1 (skip_step_bound (InMemory Sample.table) 4 1 2 1 5 None false)).
    lia.
  - apply (proj2 (skip_step_bound (InMemory Sample.table) 4 1 2 1 4 None false)).
    reflexivity.
Defined.

Lemma batch_shape_witness :
  get_batch_size (Sample.slurped 2) = Ok (2 * (4 `div` 2)) ∧
  has_shape Sample.batch.1 (2 * (4 `div` 2)) 4 ∧
  has_shape Sample.batch.2 (2 * (4 `div` 2)) 4.
Proof.
  apply (batch_shape (InMemory Sample.table) 4 1 2 1 2 None false
           (Sample.slurped 2) (Sample.slurped 2) Sample.raw).
  - reflexivity.
  - lia.
  - lia.
  - simpl. unfold Py.len. simpl. lia.
  - constructor.
  - eapply (emits_slurped _ _ _ 2); reflexivity.
Defined.

(** C3 fails as the specification states it: on a table of three
    sentences with [num_shifted_sentences = 4] the block is the three
    sentences there are, and the batch has six rows where [batch_size] is
    eight. *)
Lemma short_table_short_batch :
  __init__ (InMemory Sample.table) 4 1 4 1 2 None false = Ok (Sample.slurped 4) ∧
  get_batch_size (Sample.slurped 4) = Ok 8 ∧
  ∃ x y g', next_slurped (Sample.slurped 4) = Ok ((x, y), g') ∧
            Py.len x = 6 ∧ Py.len y = 6 ∧ ¬ has_shape x 8 4.
Proof.
  split; [reflexivity|]. split; [reflexivity|].
  eexists _, _, _. split; [vm_compute; reflexivity|].
  split; [reflexivity|]. split; [reflexivity|].
  intros [Hlen _]. vm_compute in Hlen. discriminate.
Qed.

Lemma cursor_in_range_witness :
  0 ≤ current_idx (set_current_idx (Sample.slurped 2) 2)
    < explicit_seq_len (set_current_idx (Sample.slurped 2) 2).
Proof.
  apply (cursor_in_range (InMemory Sample.table) 4 1 2 1 2 None false
           (Sample.slurped 2)).
  - reflexivity.
  - simpl. lia.
  - apply (reach_yield _ (Sample.slurped 2) Sample.batch).
    + constructor.
    + reflexivity.
Defined.

(** C6 fails as the specification states it: with [num_shifted_sentences]
    equal to the three sentences of the table, the cursor is [3] after the
    first batch, which is [explicit_seq_len] and not below it. *)
Lemma cursor_reaches_sentence_count :
  __init__ (InMemory Sample.table) 4 1 3 1 2 None false = Ok (Sample.slurped 3) ∧
  ∃ g, reachable (Sample.slurped 3) g ∧
       current_idx g = 3 ∧ explicit_seq_len g = 3 ∧
       ¬ (0 ≤ current_idx g < explicit_seq_len g).
Proof.
  split; [reflexivity|].
  exists (set_current_idx (Sample.slurped 3) 3). split.
  - eapply reach_yield; [constructor|]. vm_compute. reflexivity.
  - simpl. repeat split; lia.
Qed.

Lemma first_wrap_at_ceil_witness :
  let c := ceil_div 3 2 in
  (Z.of_nat 2 < c →
     current_idx (set_current_idx (Sample.slurped 2) 2) = Z.of_nat 2 * 2 ∧
     (Z.of_nat 2 + 1 < c →
        current_idx (set_current_idx (Sample.slurped 2) 2) + 2
          < explicit_seq_len (set_current_idx (Sample.slurped 2) 2) ∧
        wrap (set_current_idx (Sample.slurped 2) 2)
          = current_idx (set_current_idx (Sample.slurped 2) 2)) ∧
     (Z.of_nat 2 + 1 = c →
        current_idx (set_current_idx (Sample.slurped 2) 2) + 2
          >= explicit_seq_len (set_current_idx (Sample.slurped 2) 2) ∧
        wrap (set_current_idx (Sample.slurped 2) 2) = 0)) ∧
  (Z.of_nat 2 = c → current_idx (set_current_idx (Sample.slurped 2) 2) = 2).
Proof.
  apply (first_wrap_at_ceil (InMemory Sample.table) 4 1 2 1 2 None false
           (Sample.slurped 2) 2 [Sample.batch; Sample.batch]).
  - reflexivity.
  - lia.
  - simpl. lia.
  - reflexivity.
Defined.

(** C7 fails as the specification states it: three sentences taken two at
    a time give [ceil(3 / 2) = 2], and after two batches the cursor is [2],
    not [0]. *)
Lemma cursor_after_ceil_batches :
  ceil_div 3 2 = 2 ∧
  ∃ bs g, run_slurped 2 (Sample.slurped 2) = Ok (bs, g) ∧
          current_idx g = 2 ∧ current_idx g ≠ 0.
Proof.
  split; [reflexivity|].
  eexists _, _. split; [vm_compute; reflexivity|]. simpl. split; lia.
Qed.



(** The on-disk strategy asked to read a table: the bytes of the ids are
    taken for the path, and their zero bytes are refused. *)
Example table_is_no_path :
  disk_rows 1 (Sample.slurped 2) Sample.corpus 0 = Some (Raise ValueError).
Proof. reflexivity. Qed.


Lemma preparer_has_no_length_check_witness :
  Train.prepare_sequences id Sample.inverted Sample.lines
  = Ok (cut Sample.inverted <$> kept Sample.inverted (id <$> Sample.lines)).
Proof.
  apply (preparer_has_no_length_check id Sample.inverted Sample.lines).
  - simpl. lia.
  - simpl. lia.
  - vm_compute. lia.
Defined.

(** C5 fails as the specification states it: asked for at least three ids
    and at most two, the preparer raises nothing and returns the ten lines
    cut to two ids, and the constructor accepts the same lengths. *)
Lemma preparer_accepts_min_above_max :
  Train.min_seq_len Sample.inverted > Train.max_seq_len Sample.inverted ∧
  Train.prepare_sequences id Sample.inverted Sample.lines
  = Ok (replicate 10 [5; 3]) ∧
  ∃ g, __init__ (InMemory (replicate 10 [5; 3])) 2 3 2 1 1 None false = Ok g.
Proof.
  split; [simpl; lia|]. split; [reflexivity|]. eexists. reflexivity.
Qed.

(** * Further properties of the code *)

(** ** The layout of a batch *)

Lemma lookup_concat_uniform {A} (ls : list (list A)) (B w j : nat) l a :
  Forall (fun l => length l = B) ls →
  ls !! w = Some l → l !! j = Some a →
  concat ls !! (w * B + j)%nat = Some a.
Proof.
  intros Hls. revert w. induction Hls as [|l0 ls Hl0 _ IH]; intros w Hw Hj; [done|].
  destruct w as [|w]; simpl in *.
  - injection Hw as ->. by apply lookup_app_l_Some.
  - rewrite lookup_app_r by lia.
    replace (B + w * B + j - length l0)%nat with (w * B + j)%nat by lia.
    by apply IH.
Qed.

Lemma range_lookup n (w : nat) :
  Z.of_nat w < n → Py.range n !! w = Some (Z.of_nat w).
Proof.
  intros Hw. unfold Py.range. rewrite list_lookup_fmap.
  rewrite lookup_seq_lt by lia. done.
Qed.

Lemma windows_lookup (block : rows) skip nsw (w j : nat) row :
  Z.of_nat w < nsw → block !! j = Some row →
  (windows block skip nsw).1 !! (w * length block + j)%nat
  = Some (Py.slice (Some (Z.of_nat w * skip)) None row).
Proof.
  intros Hw Hj. rewrite windows_unfold. cbn [fst].
  eapply lookup_concat_uniform.
  - apply Forall_fmap, Forall_forall. intros i _. simpl. by rewrite length_fmap.
  - rewrite list_lookup_fmap, range_lookup by done. done.
  - by rewrite list_lookup_fmap, Hj.
Qed.

(** X1. The windowing loop of both strategies, on a block of rows of
    [max_seq_len] ids: the rows of the batch come window after window, and
    within a window sentence after sentence; row [w * B + j] of [x] is
    sentence [j] of the block from column [w * skip_step] on, followed by as
    many ones as columns were cut, and the same row of [y] starts one column
    later; every window keeps [skip_step] columns or more. *)
Theorem batch_layout g (block : rows) nsw x y (w j : nat) row :
  Forall (fun r => Py.len r = max_seq_len g) block →
  0 < skip_step g →
  get_num_sliding_windows g = Ok nsw →
  repad g (windows block (skip_step g) nsw) = Ok (x, y) →
  Z.of_nat w < nsw → block !! j = Some row →
  let off := Z.to_nat (Z.of_nat w * skip_step g) in
  x !! (w * length block + j)%nat = Some (drop off row ++ replicate off 1) ∧
  y !! (w * length block + j)%nat
  = Some (drop (S off) row ++ replicate (S off) 1) ∧
  skip_step g ≤ Py.len (drop off row).
Proof.
  intros Hblock Hs Hnsw Hrepad Hw Hj off.
  unfold get_num_sliding_windows in Hnsw.
  rewrite floordiv_ok in Hnsw by lia. injection Hnsw as <-.
  assert (Py.len row = max_seq_len g) as Hrow.
  { rewrite Forall_forall in Hblock. apply Hblock. by eapply list_elem_of_lookup_2. }
  pose proof (Z.mul_div_le (max_seq_len g) (skip_step g) Hs) as Hle.
  assert (Z.of_nat off = Z.of_nat w * skip_step g) as Hoff by (subst off; nia).
  assert (Z.of_nat off + skip_step g ≤ max_seq_len g) as Hbound by nia.
  assert (Forall (fun r => Py.len r ≤ max_seq_len g) block) as Hblock'.
  { eapply Forall_impl; [exact Hblock|]. intros r Hr. simpl in *. lia. }
  rewrite repad_ok in Hrepad by (done || lia). injection Hrepad as <- <-.
  rewrite windows_snd, !list_lookup_fmap.
  rewrite (windows_lookup _ _ _ w j row) by done. simpl.
  rewrite !slice_from by nia.
  change (Z.to_nat 1) with 1%nat. rewrite drop_drop. fold off.
  unfold post_pad, Py.len in *. rewrite !length_drop.
  repeat split.
  - do 3 f_equal. lia.
  - replace (off + 1)%nat with (S off) by lia.
    replace (Z.to_nat (max_seq_len g) - (length row - S off))%nat
      with (S off) by lia.
    done.
  - lia.
Qed.

(** X2. The last column of the targets is always the literal [1]: no row of [y]
    has a token there. *)
Theorem last_target_column g raw x y (i : nat) yi :
  table_fits g → emits g raw (x, y) → 0 < max_seq_len g →
  y !! i = Some yi →
  yi !! (Z.to_nat (max_seq_len g) - 1)%nat = Some 1.
Proof.
  intros Ht He HM Hi.
  destruct (emits_repad _ _ _ Ht He) as (Hle & Hy & _).
  destruct (emits_post_pad _ _ _ _ Ht He) as [_ ->].
  rewrite Hy, !list_lookup_fmap in Hi.
  destruct (raw.1 !! i) as [r|] eqn:Hr; [|done]. injection Hi as <-.
  assert (Py.len r ≤ max_seq_len g) as Hlen.
  { rewrite Forall_forall in Hle. apply Hle. by eapply list_elem_of_lookup_2. }
  apply post_pad_cell; [|lia].
  destruct (decide (r = [])) as [->|Hne]; [simpl; lia|].
  rewrite slice_from by lia. rewrite length_drop. unfold Py.len in Hlen. lia.
Qed.

(** X3. A generator that the constructor accepts with a positive skip step has
    at least one sliding window, the windows fit in [max_seq_len] columns,
    and a positive [num_shifted_sentences] gives a batch of at least that
    many rows. *)
Theorem constructed_has_window src M m n p s e ns g :
  __init__ src M m n p s e ns = Ok g → 0 < s →
  ∃ w, get_num_sliding_windows g = Ok w ∧ 1 ≤ w ∧ w * s ≤ M ∧
       (0 < n → ∃ b, get_batch_size g = Ok b ∧ n ≤ b).
Proof.
  intros [HsM ->]%init_inv Hs. exists (M `div` s).
  unfold get_batch_size, get_num_sliding_windows. simpl.
  rewrite floordiv_ok by lia.
  assert (1 ≤ M `div` s) as Hw.
  { apply Z.div_le_lower_bound; lia. }
  pose proof (Z.mul_div_le M s Hs).
  repeat split; [done|lia|].
  intros Hn. eexists. split; [done|]. nia.
Qed.


(** ** The in-memory stream *)

Lemma next_slurped_same_wrap g i :
  wrap (set_current_idx g i) = wrap g →
  next_slurped (set_current_idx g i) = next_slurped g.
Proof.
  intros Hw. unfold next_slurped, slurped_rows.
  cbn [max_seq_len skip_step x_sequences num_shifted_sentences set_current_idx].
  rewrite Hw.
  change (repad (set_current_idx g i)) with (repad g).
  done.
Qed.

Lemma run_slurped_snoc k : ∀ g bs g',
  run_slurped (S k) g = Ok (bs, g') →
  ∃ bs' g1 b, run_slurped k g = Ok (bs', g1) ∧ next_slurped g1 = Ok (b, g') ∧
              bs = bs' ++ [b].
Proof.
  induction k as [|k IH]; intros g bs g' Hrun.
  - apply run_slurped_S in Hrun as (b & g1 & bs' & Hn & Hr & ->).
    injection Hr as <- <-. by exists [], g, b.
  - apply run_slurped_S in Hrun as (b & g1 & bs' & Hn & Hr & ->).
    apply IH in Hr as (bs'' & g2 & b' & Hr & Hn' & ->).
    exists (b :: bs''), g2, b'. split; [|done].
    cbn [run_slurped]. rewrite Hn. cbn [mbind result_bind]. by rewrite Hr.
Qed.

(** X6. Until the wrap the blocks follow one another: after [j] batches the
    cursor is [j * num_shifted_sentences], and the next batch is built from
    the [num_shifted_sentences] sentences that start there. *)
Theorem blocks_are_consecutive table M m n p s e ns g0 (j : nat) bs g w :
  __init__ (InMemory table) M m n p s e ns = Ok g0 →
  0 < n →
  (Z.of_nat j + 1) * n < explicit_seq_len g0 →
  explicit_seq_len g0 ≤ Py.len table →
  run_slurped j g0 = Ok (bs, g) →
  current_idx g = Z.of_nat j * n ∧
  length (take (Z.to_nat n) (drop (j * Z.to_nat n) table)) = Z.to_nat n ∧
  slurped_rows g w
  = Ok (windows (take (Z.to_nat n) (drop (j * Z.to_nat n) table)) s w).
Proof.
  intros [_ Hg0]%init_inv Hn Hj He Hrun.
  assert (num_shifted_sentences g0 = n ∧ current_idx g0 = 0 ∧
          x_sequences g0 = InMemory table ∧ skip_step g0 = s) as (Hn0 & Hc0 & Hx0 & Hs0)
    by (by subst g0).
  apply run_slurped_before_wrap in Hrun; [|lia|nia].
  rewrite Hc0, Hn0, Z.add_0_l in Hrun. subst g.
  split; [done|]. split.
  - rewrite length_take, length_drop. unfold Py.len in He. nia.
  - unfold slurped_rows. cbn [x_sequences set_current_idx]. rewrite Hx0.
    assert (wrap (set_current_idx g0 (Z.of_nat j * n)) = Z.of_nat j * n) as ->.
    { unfold wrap. cbn [current_idx num_shifted_sentences explicit_seq_len
                        set_current_idx].
      rewrite Hn0. by rewrite bool_decide_false by nia. }
    cbn [num_shifted_sentences skip_step set_current_idx]. rewrite Hn0, Hs0.
    rewrite slice_between by nia.
    do 3 f_equal; [lia|f_equal; nia].
Qed.

(** X7. The stream is periodic: with blocks smaller than the sentence count and
    [c = ceil(explicit_seq_len / num_shifted_sentences)], batch [c] is the
    first batch again and leaves the generator as the first batch left it,
    so that [c - 1] batches make a cycle. *)
Theorem stream_period src M m n p s e ns g0 b1 g1 bs gc :
  __init__ src M m n p s e ns = Ok g0 →
  0 < n → n < explicit_seq_len g0 →
  next_slurped g0 = Ok (b1, g1) →
  run_slurped (Z.to_nat (ceil_div (explicit_seq_len g0) n)) g0 = Ok (bs, gc) →
  gc = g1 ∧ last bs = Some b1.
Proof.
  intros [_ Hg0]%init_inv Hn He Hnext Hrun.
  assert (num_shifted_sentences g0 = n ∧ current_idx g0 = 0) as [Hn0 Hc0]
    by (by subst g0).
  pose proof (ceil_div_bounds (explicit_seq_len g0) n Hn) as Hc.
  destruct (Z.to_nat (ceil_div (explicit_seq_len g0) n)) as [|c'] eqn:Hc'; [nia|].
  apply run_slurped_snoc in Hrun as (bs' & g' & b & Hrun & Hlast & ->).
  apply run_slurped_before_wrap in Hrun; [|lia|nia].
  rewrite Hc0, Hn0, Z.add_0_l in Hrun. subst g'.
  rewrite next_slurped_same_wrap in Hlast.
  - rewrite Hnext in Hlast. injection Hlast as <- <-.
    split; [done|]. apply last_snoc.
  - unfold wrap. cbn [current_idx num_shifted_sentences explicit_seq_len
                      set_current_idx].
    rewrite Hc0, Hn0. rewrite bool_decide_true by nia.
    by case_bool_decide.
Qed.

Lemma next_slurped_ignores_tail t tail tail' n (q j : nat) g :
  x_sequences g = InMemory (t ++ tail) →
  explicit_seq_len g = Py.len (t ++ tail) →
  num_shifted_sentences g = n → current_idx g = Z.of_nat j * n →
  0 < n → (0 < q)%nat → Py.len t = Z.of_nat q * n →
  0 < Py.len tail ≤ n →
  next_slurped (with_source g (InMemory (t ++ tail')))
  = match next_slurped g with
    | Ok (b, g1) => Ok (b, with_source g1 (InMemory (t ++ tail')))
    | Raise e => Raise e
    end ∧
  ∃ j' : nat, wrap g + n = Z.of_nat j' * n.
Proof.
  intros Hx He Hn Hc Hnpos Hq Ht Htail.
  assert (0 ≤ wrap g ∧ wrap g + n ≤ Py.len t ∧
          ∃ j' : nat, wrap g + n = Z.of_nat j' * n) as (Hw0 & Hw1 & Hj').
  { unfold Py.len in *. rewrite length_app in He.
    destruct (wrap_cases g) as [[_ ->]|[Hlt ->]].
    - split; [lia|]. split; [nia|]. exists 1%nat. lia.
    - rewrite Hn, Hc, He in Hlt. rewrite Hc.
      assert (Z.of_nat j + 1 ≤ Z.of_nat q) by nia.
      split; [nia|]. split; [nia|]. exists (S j). lia. }
  split; [|done].
  assert (∀ tl : rows,
            Py.slice (Some (wrap g)) (Some (wrap g + n)) (t ++ tl)
            = take (Z.to_nat n) (drop (Z.to_nat (wrap g)) t)) as Hblock.
  { intros tl. rewrite slice_between by lia.
    unfold Py.len in Hw1.
    rewrite drop_app_le by lia. rewrite take_app_le by (rewrite length_drop; lia).
    f_equal. lia. }
  unfold next_slurped, slurped_rows.
  cbn [max_seq_len skip_step x_sequences num_shifted_sentences with_source].
  change (wrap (with_source g (InMemory (t ++ tail')))) with (wrap g).
  change (repad (with_source g (InMemory (t ++ tail')))) with (repad g).
  rewrite Hx, Hn, !Hblock.
  destruct (Py.floordiv _ _) as [w|]; [|done]. cbn [mbind result_bind].
  destruct (repad g _) as [b|]; [|done]. done.
Qed.

Lemma run_slurped_ignores_tail t tail tail' n (q : nat) k : ∀ (j : nat) g,
  x_sequences g = InMemory (t ++ tail) →
  explicit_seq_len g = Py.len (t ++ tail) →
  num_shifted_sentences g = n → current_idx g = Z.of_nat j * n →
  0 < n → (0 < q)%nat → Py.len t = Z.of_nat q * n →
  0 < Py.len tail ≤ n →
  yielded (run_slurped k (with_source g (InMemory (t ++ tail'))))
  = yielded (run_slurped k g).
Proof.
  induction k as [|k IH]; intros j g Hx He Hn Hc Hnpos Hq Ht Htail; [done|].
  destruct (next_slurped_ignores_tail t tail tail' n q j g)
    as (Hstep & j' & Hj'); try done.
  cbn [run_slurped]. rewrite Hstep.
  destruct (next_slurped g) as [[b g1]|] eqn:Hnext; [|done].
  cbn [mbind result_bind].
  apply next_slurped_state in Hnext. subst g1.
  specialize (IH j' (set_current_idx g (wrap g + num_shifted_sentences g))).
  cbn [x_sequences explicit_seq_len num_shifted_sentences current_idx
       set_current_idx] in IH.
  rewrite Hn in IH. specialize (IH Hx He eq_refl Hj' Hnpos Hq Ht Htail).
  rewrite Hn. unfold yielded in *.
  destruct (run_slurped k (with_source _ _)) as [[bs1 ?]|],
           (run_slurped k (set_current_idx _ _)) as [[bs2 ?]|];
    simpl in *; congruence.
Qed.

(** X8. What comes after the last block that ends before the final sentence is
    never yielded: of a table of [q] full blocks followed by at most one
    block more, the batches are the same whatever these last sentences
    are. *)
Theorem tail_never_yielded t tail tail' M m n p s ns (q k : nat) g0 g0' :
  __init__ (InMemory (t ++ tail)) M m n p s None ns = Ok g0 →
  __init__ (InMemory (t ++ tail')) M m n p s None ns = Ok g0' →
  0 < n → (0 < q)%nat → Py.len t = Z.of_nat q * n →
  0 < Py.len tail ≤ n → length tail' = length tail →
  yielded (run_slurped k g0') = yielded (run_slurped k g0).
Proof.
  intros [_ ->]%init_inv [_ ->]%init_inv Hn Hq Ht Htail Hlen.
  match goal with |- yielded (run_slurped k ?a) = yielded (run_slurped k ?b) =>
    replace a with (with_source b (InMemory (t ++ tail'))) end.
  - apply (run_slurped_ignores_tail t tail tail' n q k 0%nat); simpl; (done || lia).
  - unfold with_source. simpl. f_equal.
    unfold Py.len. rewrite !length_app. lia.
Qed.

Lemma read_block_ignores_cursor i fuel g f : ∀ pos acc cnt,
  read_block fuel (set_current_idx g i) f pos acc cnt
  = read_block fuel g f pos acc cnt.
Proof.
  induction fuel as [|fuel IH]; intros pos acc cnt; [done|].
  cbn [read_block].
  cbn [min_seq_len max_seq_len num_shifted_sentences set_current_idx].
  destruct (readline f _) as [text pos1].
  destruct (Np.genfromtxt text) as [|line]; [done|].
  case_bool_decide; [apply IH|].
  destruct (if bool_decide (Py.len line > max_seq_len g) then _ else _)
    as [line'|]; [|done].
  case_bool_decide; [done|apply IH].
Qed.

(** X10. [reset] puts a generator, wherever the in-memory batches have
    taken it, back as the constructor built it, so that these batches start
    over.  The on-disk strategy never reads the cursor: on any generator
    and whatever value the cursor is given, a request on the file gives the
    same result, so that [reset] changes nothing of what is read from the
    file. *)
Theorem reset_restarts src M m n p s e ns g0 g gd (i : Z) fuel f pos :
  __init__ src M m n p s e ns = Ok g0 →
  reachable g0 g →
  reset g = g0 ∧
  next_disk fuel (set_current_idx gd i) f pos = next_disk fuel gd f pos ∧
  next_disk fuel (reset gd) f pos = next_disk fuel gd f pos.
Proof.
  intros [_ Hg0]%init_inv Hr.
  assert (∀ j, next_disk fuel (set_current_idx gd j) f pos
               = next_disk fuel gd f pos) as Hcursor.
  { intros j. unfold next_disk, disk_rows.
    cbn [max_seq_len skip_step x_sequences set_current_idx].
    rewrite read_block_ignores_cursor.
    change (pad_block (set_current_idx gd j)) with (pad_block gd).
    change (repad (set_current_idx gd j)) with (repad gd).
    done. }
  split; [|split; [apply Hcursor|apply Hcursor]].
  rewrite (reachable_config _ _ Hr). by subst g0.
Qed.

(** X9. In memory nothing stops the stream: on a table of padded sequences,
    with a skip step that is not zero, any number of batches is yielded
    without an exception. *)
Theorem slurped_never_stops table (k : nat) : ∀ g,
  x_sequences g = InMemory table → table_fits g →
  skip_step g ≠ 0 → 0 ≤ max_seq_len g →
  ∃ bs g', run_slurped k g = Ok (bs, g') ∧ length bs = k.
Proof.
  induction k as [|k IH]; intros g Hx Ht Hs HM.
  - by exists [], g.
  - destruct (next_slurped_total g table Hx Ht Hs HM) as [b Hb].
    destruct (IH (set_current_idx g (wrap g + num_shifted_sentences g)))
      as (bs & g' & Hrun & Hlen); try done.
    exists (b :: bs), g'. cbn [run_slurped]. rewrite Hb.
    cbn [mbind result_bind]. rewrite Hrun. simpl. by rewrite Hlen.
Qed.


(** ** The prepared table *)

Lemma setslice_tail {A} (row src : list A) :
  (length src ≤ length row)%nat → src ≠ [] →
  Np.setslice row (Some (- Py.len src)) None src
  = Ok (take (length row - length src) row ++ src).
Proof.
  intros Hlen Hsrc. unfold Np.setslice; simpl.
  assert (0 < length src)%nat by (destruct src; [done|simpl; lia]).
  assert (Z.to_nat (Py.clamp (Py.len row) (- Py.len src))
          = (length row - length src)%nat) as ->.
  { unfold Py.clamp, Py.len. rewrite bool_decide_true by lia. lia. }
  unfold Py.len. rewrite Nat2Z.id.
  rewrite bool_decide_true by lia.
  rewrite drop_ge by lia. by rewrite app_nil_r.
Qed.

Lemma pad_row_pre_pre m v s :
  (length s ≤ m)%nat →
  Keras.pad_row m Keras.pre Keras.pre v s = Ok (replicate (m - length s) v ++ s).
Proof.
  intros Hle. unfold Keras.pad_row. case_bool_decide as Hs.
  - subst s. by rewrite Nat.sub_0_r, app_nil_r.
  - assert (0 < length s)%nat by (destruct s; [done|simpl; lia]).
    rewrite slice_last by lia.
    replace (length s - m)%nat with 0%nat by lia. rewrite drop_0.
    rewrite setslice_tail by (rewrite ?length_replicate; done || lia).
    rewrite length_replicate, take_replicate. do 3 f_equal. lia.
Qed.

Lemma pad_sequences_side rs m padding v :
  0 ≤ m → Forall (fun r => Py.len r ≤ m) rs →
  Keras.pad_sequences rs m padding Keras.pre v = Ok (pad_side padding m v <$> rs).
Proof.
  intros Hm Hrs. destruct padding; [|by apply pad_sequences_post_pre].
  unfold Keras.pad_sequences. rewrite bool_decide_false by lia. apply mapR_ok.
  eapply Forall_impl; [exact Hrs|]. intros r Hr. simpl in Hr.
  apply pad_row_pre_pre. unfold Py.len in Hr. lia.
Qed.

Lemma pad_side_length padding m v r :
  Py.len r ≤ m → Py.len (pad_side padding m v r) = m.
Proof.
  intros Hr. destruct padding; simpl; [|by apply post_pad_length].
  unfold Py.len in *. rewrite length_app, length_replicate. lia.
Qed.

Lemma mapR_index_seq {A} (xs : list A) (k : nat) : ∀ i : nat,
  (i ≤ length xs)%nat → (length xs < i + k)%nat →
  mapR (Py.index xs) (Z.of_nat <$> seq i k) = Raise IndexError.
Proof.
  induction k as [|k IH]; intros i Hi Hk; [lia|].
  cbn [seq fmap list_fmap mapR].
  destruct (decide (i = length xs)) as [->|Hne].
  - unfold Py.index, Py.len. cbv zeta.
    rewrite (bool_decide_false (Z.of_nat (length xs) < 0)) by lia.
    by rewrite bool_decide_false by lia.
  - rewrite index_ok by (unfold Py.len; lia). cbn [mbind result_bind].
    by rewrite IH by lia.
Qed.

Lemma log_first_ten_short (xs : list (list Z)) :
  (length xs < 10)%nat → Train.log_first_ten xs = Raise IndexError.
Proof.
  intros Hlen. unfold Train.log_first_ten, Py.range.
  change (Z.to_nat 10) with 10%nat.
  by rewrite mapR_index_seq by lia.
Qed.

Section PreparedTable.

Context {text : Type} (encode_as_ids : text → list Z) (a : Train.args).

Hypothesis max_pos : 0 < Train.max_seq_len a.

Lemma prepared_length pieces : Py.len (prepared a pieces) ≤ Train.max_seq_len a.
Proof.
  unfold prepared, cut, Py.len. case_bool_decide; [|lia].
  destruct (Train.add_eos a); rewrite ?length_insert, length_take; lia.
Qed.

Lemma prepare_lines_prepared corpus : ∀ acc,
  Train.prepare_lines encode_as_ids a acc corpus
  = Ok (acc ++ (prepared a <$> kept a (encode_as_ids <$> corpus))).
Proof.
  unfold kept. induction corpus as [|line corpus IH]; intros acc.
  - simpl. by rewrite app_nil_r.
  - cbn [Train.prepare_lines fmap list_fmap]. unfold Train.prepare_line.
    case_bool_decide as Hlen.
    + cbn [mbind result_bind]. rewrite IH.
      rewrite filter_cons_False; [done|lia].
    + rewrite filter_cons_True; [|lia]. rewrite fmap_cons.
      destruct (decide (Py.len (encode_as_ids line) > Train.max_seq_len a))
        as [Hlong|Hlong].
      * assert (prepared a (encode_as_ids line) = cut a (encode_as_ids line))
          as -> by (unfold prepared; by rewrite bool_decide_true).
        rewrite bool_decide_true by done.
        rewrite slice_between by lia. rewrite Z.sub_0_r.
        change (Z.to_nat 0) with 0%nat. rewrite drop_0.
        assert (length (take (Z.to_nat (Train.max_seq_len a)) (encode_as_ids line))
                = Z.to_nat (Train.max_seq_len a)) as Htake.
        { rewrite length_take. unfold Py.len in *. lia. }
        assert ((if Train.add_eos a
                 then Py.setitem (take (Z.to_nat (Train.max_seq_len a))
                                       (encode_as_ids line)) (-1) 3
                 else Ok (take (Z.to_nat (Train.max_seq_len a)) (encode_as_ids line)))
                = Ok (cut a (encode_as_ids line))) as ->.
        { unfold cut. destruct (Train.add_eos a); [|done].
          unfold Py.setitem. rewrite index_last.
          - cbn [mbind result_bind]. by rewrite Htake.
          - intros Hnil. rewrite Hnil in Htake. simpl in Htake. lia. }
        cbn [mbind result_bind]. rewrite IH. by rewrite <- app_assoc.
      * assert (prepared a (encode_as_ids line) = encode_as_ids line)
          as -> by (unfold prepared; by rewrite bool_decide_false).
        rewrite bool_decide_false by done.
        cbn [mbind result_bind]. rewrite IH. by rewrite <- app_assoc.
Qed.

Lemma prepare_sequences_cases corpus :
  Train.prepare_sequences encode_as_ids a corpus
  = if decide (10 ≤ length (kept a (encode_as_ids <$> corpus)))%nat
    then Ok (pad_side (Train.padding_direction a) (Train.max_seq_len a)
               Train.PAD_ID
             <$> (prepared a <$> kept a (encode_as_ids <$> corpus)))
    else Raise IndexError.
Proof.
  unfold Train.prepare_sequences. rewrite prepare_lines_prepared.
  cbn [mbind result_bind]. rewrite app_nil_l.
  case_decide as Hten.
  - rewrite log_first_ten_ok by (by rewrite length_fmap).
    cbn [mbind result_bind]. apply pad_sequences_side; [lia|].
    apply Forall_fmap, Forall_forall. intros ps _. apply prepared_length.
  - by rewrite log_first_ten_short by (rewrite length_fmap; lia).
Qed.

End PreparedTable.

(** X15. The preparer needs ten sentences: when fewer than ten lines have
    [min_seq_len] ids or more, the loop that logs the first ten sentences
    reads past the end of the list and [prepare_sequences] raises
    [IndexError] instead of returning a table. *)
Theorem preparer_needs_ten_lines {text : Type}
    (encode_as_ids : text → list Z) (a : Train.args) (corpus : list text) :
  0 < Train.max_seq_len a →
  (length (kept a (encode_as_ids <$> corpus)) < 10)%nat →
  Train.prepare_sequences encode_as_ids a corpus = Raise IndexError.
Proof.
  intros HM Hlen. rewrite prepare_sequences_cases by done.
  by rewrite decide_False by lia.
Qed.

(** X16. The table that the preparer returns, from ten kept lines on: one row
    for each line of [min_seq_len] ids or more, in the order of the file;
    a line of at most [max_seq_len] ids is padded with [PAD_ID] on the side
    that [padding_direction] names, a longer one is cut to [max_seq_len]
    ids, its last id replaced by [3] when [add_eos] is set; every row has
    [max_seq_len] ids. *)
Theorem prepared_table {text : Type}
    (encode_as_ids : text → list Z) (a : Train.args) (corpus : list text) :
  0 < Train.max_seq_len a →
  (10 ≤ length (kept a (encode_as_ids <$> corpus)))%nat →
  ∃ table,
    Train.prepare_sequences encode_as_ids a corpus = Ok table ∧
    table = pad_side (Train.padding_direction a) (Train.max_seq_len a) Train.PAD_ID
            <$> (prepared a <$> kept a (encode_as_ids <$> corpus)) ∧
    has_shape table (Py.len (kept a (encode_as_ids <$> corpus)))
      (Train.max_seq_len a).
Proof.
  intros HM Hten. eexists. split; [|split; [reflexivity|]].
  - rewrite prepare_sequences_cases by done. by rewrite decide_True by done.
  - split; [unfold Py.len; by rewrite !length_fmap|].
    apply Forall_fmap, Forall_fmap, Forall_forall. intros ps _. simpl.
    apply pad_side_length. by apply prepared_length.
Qed.


(** ** The lines that the on-disk strategy reads *)

Lemma readline_middle (pre : file) l rest :
  readline (pre ++ l :: rest) (length pre) = (line_ids l, S (length pre)).
Proof. unfold readline. by rewrite list_lookup_middle. Qed.

Lemma readline_eof (f : file) pos :
  (length f ≤ pos)%nat → readline f pos = ([], pos).
Proof. intros Hpos. unfold readline. by rewrite lookup_ge_None_2. Qed.

Lemma middle_snoc {A} (pre : list A) l rest :
  pre ++ l :: rest = (pre ++ [l]) ++ rest.
Proof. by rewrite <- app_assoc. Qed.

Lemma length_snoc {A} (pre : list A) l : S (length pre) = length (pre ++ [l]).
Proof. rewrite length_app. simpl. lia. Qed.

Lemma mark_ok g ids :
  0 < max_seq_len g →
  (if bool_decide (Py.len ids > max_seq_len g)
   then Py.setitem ids (max_seq_len g - 1) 3 else Ok ids)
  = Ok (marked g ids).
Proof.
  intros HM. unfold marked. case_bool_decide; [|done].
  unfold Py.setitem. by rewrite index_ok by lia.
Qed.

(** The inner loop takes the next lines of [min_seq_len] ids or more, as
    many as the block still lacks, and leaves out the shorter ones. *)
Lemma read_block_skips g : ∀ (rest pre : file) acc cnt (k : nat),
  Forall (fun l => Py.len (line_ids l) ≠ 1) rest →
  0 < max_seq_len g →
  (0 < k)%nat → Z.of_nat k = num_shifted_sentences g - cnt →
  (k ≤ length (kept_lines g rest))%nat →
  ∃ used : nat,
    (used ≤ length rest)%nat ∧
    kept_lines g (take used rest) = take k (kept_lines g rest) ∧
    ∀ fuel, (length rest ≤ fuel)%nat →
      read_block fuel g (pre ++ rest) (length pre) acc cnt
      = Some (Ok (acc ++ (marked g <$> (line_ids <$> take k (kept_lines g rest))),
                  (length pre + used)%nat)).
Proof.
  unfold kept_lines.
  induction rest as [|l rest IH]; intros pre acc cnt k Hvec HM Hk Hcnt Hkept;
    [simpl in Hkept; lia|].
  apply Forall_cons in Hvec as [Hl Hvec].
  destruct (decide (Py.len (line_ids l) < min_seq_len g)) as [Hshort|Hlong].
  - rewrite filter_cons_False in Hkept |- * by lia.
    destruct (IH (pre ++ [l]) acc cnt k Hvec HM Hk Hcnt Hkept)
      as (used & Hu & Htake & Hread).
    exists (S used). split; [simpl; lia|]. split.
    { cbn [take]. by rewrite filter_cons_False by lia. }
    intros [|fuel] Hfuel; [simpl in Hfuel; lia|].
    cbn [read_block]. rewrite no_seek, readline_middle.
    rewrite genfromtxt_vector by (unfold Py.len in Hl; lia).
    rewrite bool_decide_true by done.
    rewrite middle_snoc, (length_snoc pre l).
    rewrite Hread by (simpl in Hfuel; lia).
    do 3 f_equal. rewrite length_app. simpl. lia.
  - rewrite filter_cons_True in Hkept |- * by lia.
    destruct (decide (k = 1%nat)) as [->|Hk1].
    + exists 1%nat. split; [simpl; lia|]. split.
      { cbn [take]. rewrite filter_cons_True by lia. by rewrite take_0. }
      intros [|fuel] Hfuel; [simpl in Hfuel; lia|].
      cbn [read_block]. rewrite no_seek, readline_middle.
      rewrite genfromtxt_vector by (unfold Py.len in Hl; lia).
      rewrite bool_decide_false by done.
      rewrite mark_ok by done.
      rewrite bool_decide_true by lia.
      cbn [take fmap list_fmap]. rewrite take_0.
      do 3 f_equal. lia.
    + destruct k as [|k]; [lia|].
      destruct (IH (pre ++ [l]) (acc ++ [marked g (line_ids l)]) (cnt + 1) k)
        as (used & Hu & Htake & Hread);
        [done|done|lia|lia|simpl in Hkept; lia|].
      exists (S used). split; [simpl; lia|]. split.
      { cbn [take]. rewrite filter_cons_True by lia. by rewrite Htake. }
      intros [|fuel] Hfuel; [simpl in Hfuel; lia|].
      cbn [read_block]. rewrite no_seek, readline_middle.
      rewrite genfromtxt_vector by (unfold Py.len in Hl; lia).
      rewrite bool_decide_false by done.
      rewrite mark_ok by done.
      rewrite bool_decide_false by lia.
      rewrite middle_snoc, (length_snoc pre l).
      rewrite Hread by (simpl in Hfuel; lia).
      cbn [take fmap list_fmap]. rewrite <- app_assoc.
      do 3 f_equal. rewrite length_app. simpl. lia.
Qed.

(** When the lines left hold fewer lines of [min_seq_len] ids or more than
    the block lacks, the inner loop reads them all and then the empty text
    for ever. *)
Lemma read_block_starves g : ∀ (rest pre : file) acc cnt fuel,
  Forall (fun l => Py.len (line_ids l) ≠ 1) rest →
  0 < max_seq_len g → 0 < min_seq_len g →
  Z.of_nat (length (kept_lines g rest)) < num_shifted_sentences g - cnt →
  read_block fuel g (pre ++ rest) (length pre) acc cnt = None.
Proof.
  unfold kept_lines.
  induction rest as [|l rest IH]; intros pre acc cnt fuel Hvec HM Hmin Hkept.
  - apply read_block_at_eof; [|done]. rewrite app_nil_r. lia.
  - apply Forall_cons in Hvec as [Hl Hvec].
    destruct fuel as [|fuel]; [done|].
    cbn [read_block]. rewrite no_seek, readline_middle.
    rewrite genfromtxt_vector by (unfold Py.len in Hl; lia).
    rewrite middle_snoc, (length_snoc pre l).
    destruct (decide (Py.len (line_ids l) < min_seq_len g)) as [Hshort|Hlong].
    + rewrite filter_cons_False in Hkept by lia.
      rewrite bool_decide_true by done. by apply IH.
    + rewrite filter_cons_True in Hkept by lia.
      rewrite bool_decide_false by done.
      rewrite mark_ok by done.
      rewrite bool_decide_false by (simpl in Hkept; lia).
      apply IH; [done..|]. simpl in Hkept. lia.
Qed.

(** A line of a single id that the inner loop comes to stops it with
    [TypeError]. *)
Lemma read_block_single g l after : ∀ (before pre : file) acc cnt fuel,
  Forall (fun l => Py.len (line_ids l) ≠ 1) before →
  0 < max_seq_len g →
  Z.of_nat (length (kept_lines g before)) < num_shifted_sentences g - cnt →
  Py.len (line_ids l) = 1 →
  (length before < fuel)%nat →
  read_block fuel g (pre ++ before ++ l :: after) (length pre) acc cnt
  = Some (Raise TypeError).
Proof.
  unfold kept_lines.
  induction before as [|b before IH];
    intros pre acc cnt fuel Hvec HM Hkept Hone Hfuel;
    (destruct fuel as [|fuel]; [simpl in Hfuel; lia|]).
  - cbn [read_block app]. rewrite no_seek, readline_middle.
    unfold Py.len in Hone.
    destruct (line_ids l) as [|v [|]]; simpl in Hone; (done || lia).
  - apply Forall_cons in Hvec as [Hb Hvec].
    cbn [read_block app]. rewrite no_seek, readline_middle.
    rewrite genfromtxt_vector by (unfold Py.len in Hb; lia).
    rewrite middle_snoc, (length_snoc pre b).
    destruct (decide (Py.len (line_ids b) < min_seq_len g)) as [Hshort|Hlong].
    + rewrite filter_cons_False in Hkept by lia.
      rewrite bool_decide_true by done.
      apply IH; [done..|simpl in Hfuel; lia].
    + rewrite filter_cons_True in Hkept by lia.
      rewrite bool_decide_false by done.
      rewrite mark_ok by done.
      rewrite bool_decide_false by (simpl in Hkept; lia).
      apply IH; [done|done|simpl in Hkept; lia|done|simpl in Hfuel; lia].
Qed.

(** Past the last line, a loop that keeps empty lines fills its block with
    them. *)
Lemma read_block_eof_fills g (f : file) pos (k : nat) : ∀ fuel acc cnt,
  (length f ≤ pos)%nat → min_seq_len g ≤ 0 ≤ max_seq_len g →
  (0 < k)%nat → Z.of_nat k = num_shifted_sentences g - cnt →
  (k ≤ fuel)%nat →
  read_block fuel g f pos acc cnt = Some (Ok (acc ++ replicate k [], pos)).
Proof.
  induction k as [|k IH]; intros fuel acc cnt Hpos Hm Hk Hcnt Hfuel; [lia|].
  destruct fuel as [|fuel]; [lia|].
  cbn [read_block]. rewrite no_seek, readline_eof by done.
  cbn [Np.genfromtxt].
  rewrite bool_decide_false by (unfold Py.len; simpl; lia).
  rewrite bool_decide_false by (unfold Py.len; simpl; lia).
  destruct (decide (k = 0%nat)) as [->|Hk0].
  - by rewrite bool_decide_true by lia.
  - rewrite bool_decide_false by lia.
    rewrite IH by (done || lia).
    cbn [replicate]. by rewrite <- app_assoc.
Qed.

Lemma padded_line_length g ids :
  0 ≤ max_seq_len g → Py.len (padded_line g ids) = max_seq_len g.
Proof.
  intros HM. unfold padded_line. apply post_pad_length.
  unfold Py.len. rewrite length_take. lia.
Qed.

Lemma pad_block_marked g (lines : rows) :
  0 ≤ max_seq_len g →
  pad_block g (marked g <$> lines) = Ok (padded_line g <$> lines).
Proof.
  intros HM. unfold pad_block. rewrite pad_sequences_post_post by done.
  by rewrite <- list_fmap_compose.
Qed.

Lemma split_at_pos (f : file) pos :
  (pos ≤ length f)%nat →
  f = take pos f ++ drop pos f ∧ length (take pos f) = pos.
Proof. intros Hpos. rewrite take_drop, length_take. split; [done|lia]. Qed.


(** X12. The on-disk strategy does not return to the start of the file.
    Let the skip step be other than zero, [max_seq_len] and [min_seq_len]
    positive, and let none of the lines not read yet hold a single id.
    When these lines hold fewer lines of [min_seq_len] ids or more than a
    block takes, the request for a batch never returns, whatever the number
    of iterations allowed: the loop reads the lines left and then the
    empty text for ever. *)
Theorem disk_stream_starves g path (f : file) (pos fuel : nat) :
  x_sequences g = OnDisk path →
  skip_step g ≠ 0 → 0 < max_seq_len g → 0 < min_seq_len g →
  Forall (fun l => Py.len (line_ids l) ≠ 1) (drop pos f) →
  Z.of_nat (length (kept_lines g (drop pos f))) < num_shifted_sentences g →
  next_disk fuel g f pos = None.
Proof.
  intros Hx Hs HM Hmin Hvec Hkept. unfold next_disk, disk_rows.
  rewrite floordiv_ok by done. rewrite Hx.
  destruct (decide (pos ≤ length f)%nat) as [Hpos|Hpos].
  - destruct (split_at_pos f pos Hpos) as [Hf Hlen].
    pose proof (read_block_starves g (drop pos f) (take pos f) [] 0 fuel
                  Hvec HM Hmin ltac:(lia)) as Hread.
    rewrite <- Hf, Hlen in Hread. by rewrite Hread.
  - by rewrite read_block_at_eof by (done || lia).
Qed.

(** X13. With a [min_seq_len] that is not positive, the empty text that is read
    behind the last line counts as a sentence: every request made at the
    end of the file returns a batch built from a block of
    [num_shifted_sentences] rows of pad values, and the position stays. *)
Theorem disk_stream_pads_at_eof g path (f : file) (pos fuel : nat) :
  x_sequences g = OnDisk path →
  0 < skip_step g → min_seq_len g ≤ 0 ≤ max_seq_len g →
  0 < num_shifted_sentences g →
  (length f ≤ pos)%nat →
  (Z.to_nat (num_shifted_sentences g) ≤ fuel)%nat →
  ∃ b,
    next_disk fuel g f pos = Some (Ok (b, pos)) ∧
    repad g (windows (replicate (Z.to_nat (num_shifted_sentences g))
                        (replicate (Z.to_nat (max_seq_len g))
                           (pad_idx_or_symbol g)))
               (skip_step g) (max_seq_len g `div` skip_step g)) = Ok b.
Proof.
  intros Hx Hs Hm Hn Hpos Hfuel.
  set (block := replicate (Z.to_nat (num_shifted_sentences g))
                  (replicate (Z.to_nat (max_seq_len g)) (pad_idx_or_symbol g))).
  assert (Forall (fun r => Py.len r ≤ max_seq_len g) block) as Hblock.
  { apply Forall_replicate. unfold Py.len. rewrite length_replicate. lia. }
  pose proof (repad_ok g _ (skip_step g) (max_seq_len g `div` skip_step g)
                ltac:(lia) Hblock) as Hrepad.
  eexists. split; [|exact Hrepad].
  unfold next_disk, disk_rows. rewrite floordiv_ok by lia. rewrite Hx.
  rewrite (read_block_eof_fills g f pos (Z.to_nat (num_shifted_sentences g)))
    by (done || lia).
  rewrite app_nil_l. unfold pad_block.
  rewrite pad_sequences_post_post by lia. rewrite fmap_replicate.
  rewrite take_nil. unfold post_pad. rewrite app_nil_l. cbn [length].
  rewrite Nat.sub_0_r. fold block. cbn [mbind result_bind].
  rewrite Hrepad. reflexivity.
Qed.

(** X14. A line that holds a single id is read as a 0-d array, whose length
    cannot be taken: when such a line comes before the block is full, the
    request for the batch raises [TypeError]. *)
Theorem disk_single_id_line g path (f before after : file) l (pos fuel : nat) :
  x_sequences g = OnDisk path →
  skip_step g ≠ 0 → 0 < max_seq_len g →
  drop pos f = before ++ l :: after →
  Forall (fun l => Py.len (line_ids l) ≠ 1) before →
  Z.of_nat (length (kept_lines g before)) < num_shifted_sentences g →
  Py.len (line_ids l) = 1 →
  (length before < fuel)%nat →
  next_disk fuel g f pos = Some (Raise TypeError).
Proof.
  intros Hx Hs HM Hdrop Hvec Hkept Hone Hfuel. unfold next_disk, disk_rows.
  rewrite floordiv_ok by done. rewrite Hx.
  assert (pos ≤ length f)%nat as Hpos.
  { destruct (decide (pos ≤ length f)%nat); [done|].
    rewrite drop_ge in Hdrop by lia. by destruct before. }
  destruct (split_at_pos f pos Hpos) as [Hf Hlen].
  pose proof (read_block_single g l after before (take pos f) [] 0 fuel
                Hvec HM ltac:(lia) Hone Hfuel) as Hread.
  rewrite <- Hdrop, <- Hf, Hlen in Hread. by rewrite Hread.
Qed.


(** ** The two pipelines of the program *)

Lemma kept_lines_ids g a (f : file) :
  min_seq_len g = Train.min_seq_len a →
  kept a (line_ids <$> f) = line_ids <$> kept_lines g f.
Proof.
  intros Hmin. unfold kept, kept_lines.
  induction f as [|l f IH]; [done|]. rewrite fmap_cons.
  destruct (decide (Train.min_seq_len a ≤ Py.len (line_ids l))).
  - rewrite !filter_cons_True by lia. by rewrite fmap_cons, IH.
  - by rewrite !filter_cons_False by lia.
Qed.

Lemma prepared_padded_line g a ids :
  max_seq_len g = Train.max_seq_len a → pad_idx_or_symbol g = Train.PAD_ID →
  Train.add_eos a = true → 0 < Train.max_seq_len a →
  post_pad (Train.max_seq_len a) Train.PAD_ID (prepared a ids) = padded_line g ids.
Proof.
  intros HM Hp Heos Hpos. unfold padded_line, prepared, marked, cut.
  rewrite HM, Hp, Heos. f_equal. case_bool_decide as Hlen.
  - rewrite take_insert_lt by lia. f_equal. lia.
  - rewrite take_ge; [done|]. unfold Py.len in Hlen. lia.
Qed.

Section Pipeline.

Variables (f : file) (gm gd : generator) (path : string).

Hypothesis in_memory :
  x_sequences gm = InMemory (padded_line gd <$> (line_ids <$> kept_lines gd f)).
Hypothesis on_disk : x_sequences gd = OnDisk path.
Hypothesis count : explicit_seq_len gm = Py.len (kept_lines gd f).
Hypothesis same_max : max_seq_len gm = max_seq_len gd.
Hypothesis same_skip : skip_step gm = skip_step gd.
Hypothesis same_block : num_shifted_sentences gm = num_shifted_sentences gd.
Hypothesis vectors : Forall (fun l => Py.len (line_ids l) ≠ 1) f.
Hypothesis max_pos : 0 < max_seq_len gd.
Hypothesis skip_pos : 0 < skip_step gd.
Hypothesis block_pos : 0 < num_shifted_sentences gd.

(** One batch, the file read up to line [pos], [j] of these lines kept. *)
Lemma pipeline_step (pos j : nat) :
  (pos ≤ length f)%nat → length (kept_lines gd (take pos f)) = j →
  Z.of_nat j + num_shifted_sentences gd < Py.len (kept_lines gd f) →
  ∃ b pos',
    next_slurped (set_current_idx gm (Z.of_nat j))
    = Ok (b, set_current_idx gm
               (Z.of_nat (j + Z.to_nat (num_shifted_sentences gd)))) ∧
    (pos' ≤ length f)%nat ∧
    length (kept_lines gd (take pos' f))
    = (j + Z.to_nat (num_shifted_sentences gd))%nat ∧
    ∀ fuel, (length f ≤ fuel)%nat →
      next_disk fuel gd f pos = Some (Ok (b, pos')).
Proof.
  intros Hpos Hj Hlt. unfold Py.len in Hlt.
  set (n := Z.to_nat (num_shifted_sentences gd)) in *.
  set (lines := take n (drop j (line_ids <$> kept_lines gd f))).
  set (block := padded_line gd <$> lines).
  assert (Forall (fun r => Py.len r ≤ max_seq_len gd) block) as Hblock.
  { subst block. apply Forall_fmap, Forall_forall. intros ids _. simpl.
    rewrite padded_line_length; lia. }
  pose proof (repad_ok gd block (skip_step gd)
                (max_seq_len gd `div` skip_step gd) ltac:(lia) Hblock) as Hrepad.
  destruct (split_at_pos f pos Hpos) as [Hf Hlen].
  assert (kept_lines gd (drop pos f) = drop j (kept_lines gd f)) as Hdrop.
  { rewrite Hf at 2. unfold kept_lines in *. rewrite filter_app.
    by rewrite drop_app_length' by done. }
  destruct (read_block_skips gd (drop pos f) (take pos f) [] 0 n)
    as (used & Hu & Htake & Hread);
    [by apply Forall_drop|done|lia|lia|rewrite Hdrop, length_drop; lia|].
  rewrite <- Hf, Hlen in Hread. rewrite length_drop in Hu, Hread.
  exists (post_pad (max_seq_len gd) 1 <$> (windows block (skip_step gd)
                    (max_seq_len gd `div` skip_step gd)).1,
          post_pad (max_seq_len gd) 1 <$> (windows block (skip_step gd)
                    (max_seq_len gd `div` skip_step gd)).2),
         (pos + used)%nat.
  split; [|split; [lia|split]].
  - unfold next_slurped. cbn [max_seq_len skip_step set_current_idx].
    rewrite same_max, same_skip.
    rewrite floordiv_ok by lia. cbn [mbind result_bind].
    unfold slurped_rows. cbn [x_sequences set_current_idx]. rewrite in_memory.
    assert (wrap (set_current_idx gm (Z.of_nat j)) = Z.of_nat j) as ->.
    { unfold wrap. simpl. rewrite count, same_block. unfold Py.len.
      by rewrite bool_decide_false by lia. }
    cbn [num_shifted_sentences skip_step set_current_idx].
    rewrite same_block, same_skip.
    rewrite slice_between by lia.
    replace (Z.to_nat (Z.of_nat j + num_shifted_sentences gd - Z.of_nat j))
      with n by lia.
    rewrite Nat2Z.id. rewrite <- fmap_drop, <- fmap_take. fold lines. fold block.
    cbn [mbind result_bind].
    assert (repad (set_current_idx gm (Z.of_nat j)) = repad gd) as ->.
    { unfold repad. cbn [max_seq_len set_current_idx]. by rewrite same_max. }
    rewrite Hrepad. cbn [mbind result_bind].
    do 2 f_equal. unfold set_current_idx. simpl. f_equal. lia.
  - rewrite <- take_take_drop. unfold kept_lines in *.
    rewrite filter_app, length_app, Hj, Htake, length_take.
    rewrite Hdrop, length_drop. lia.
  - intros fuel Hfuel. unfold next_disk, disk_rows.
    rewrite floordiv_ok by lia. rewrite on_disk.
    rewrite Hread by lia. rewrite app_nil_l.
    rewrite Hdrop, fmap_take, fmap_drop. fold lines.
    rewrite pad_block_marked by lia. fold block.
    cbn [mbind result_bind]. by rewrite Hrepad.
Qed.

(** The first [k] batches. *)
Lemma pipeline_run (k : nat) : ∀ pos j : nat,
  (pos ≤ length f)%nat → length (kept_lines gd (take pos f)) = j →
  Z.of_nat j + Z.of_nat k * num_shifted_sentences gd < Py.len (kept_lines gd f) →
  ∃ bs g, run_slurped k (set_current_idx gm (Z.of_nat j)) = Ok (bs, g) ∧
          ∀ fuel, (length f ≤ fuel)%nat →
            ∃ pos', run_disk fuel k gd f pos = Some (Ok (bs, pos')).
Proof.
  induction k as [|k IH]; intros pos j Hpos Hj Hlt.
  - exists [], (set_current_idx gm (Z.of_nat j)). split; [done|].
    intros fuel _. by exists pos.
  - destruct (pipeline_step pos j Hpos Hj) as (b & pos1 & Hm & Hpos1 & Hj1 & Hd);
      [nia|].
    destruct (IH pos1 _ Hpos1 Hj1) as (bs & g & Hrun & Hdisk); [nia|].
    exists (b :: bs), g. split.
    + simpl. rewrite Hm. simpl. rewrite Hrun. done.
    + intros fuel Hfuel. destruct (Hdisk fuel Hfuel) as [pos' Hpos'].
      exists pos'. simpl. rewrite (Hd fuel Hfuel). by rewrite Hpos'.
Qed.

End Pipeline.

(** X19. The two pipelines of [main] give the same batches.  Let the arguments
    ask for the end marker ([add_eos]) and for padding behind the sentence,
    and let the file of ids hold, line by line, the ids of the lines of the
    text corpus, none of them a single id.  Then the generator that [main]
    builds on the table of [prepare_sequences] and the one it builds on the
    file with [no_slurp] yield the same first [k] batches, as long as the
    blocks of these batches end before the last sentence kept; the on-disk
    strategy skips the lines that the preparer drops, and marks and cuts
    the long lines as the preparer does. *)
Theorem pipelines_agree {text : Type} (encode_as_ids : text → list Z)
    (a : Train.args) (corpus corpus' : list text) (f : file)
    (path path' : string) (wc_l wc_l' : Z) (k : nat) gm gd :
  Train.no_slurp a = false → Train.add_eos a = true →
  Train.padding_direction a = Keras.post →
  0 < Train.max_seq_len a →
  0 ≤ Train.skip_step a → 0 ≤ Train.num_sents_to_shift a →
  Train.batch_generator encode_as_ids a corpus path wc_l = Ok gm →
  Train.batch_generator encode_as_ids (streaming a) corpus' path' wc_l' = Ok gd →
  line_ids <$> f = encode_as_ids <$> corpus →
  Forall (fun l => Py.len (line_ids l) ≠ 1) f →
  Z.of_nat k * num_shifted_sentences gm < explicit_seq_len gm →
  ∃ bs, yielded (run_slurped k gm) = Ok bs ∧
        ∀ fuel, (length f ≤ fuel)%nat →
          ∃ pos', run_disk fuel k gd f 0 = Some (Ok (bs, pos')).
Proof.
  intros Hslurp Heos Hdir HM Hs Hn Hgm Hgd Hf Hvec Hk.
  unfold Train.batch_generator in Hgm, Hgd. cbn [streaming Train.no_slurp] in Hgd.
  rewrite Hslurp in Hgm.
  destruct (Train.prepare_sequences encode_as_ids a corpus) as [table|] eqn:Ht;
    [|done].
  cbn [mbind result_bind streaming Train.max_seq_len Train.min_seq_len
       Train.num_sents_to_shift Train.skip_step] in Hgm, Hgd.
  apply init_inv in Hgm as [_ ->]. apply init_inv in Hgd as [_ ->].
  rewrite prepare_sequences_cases in Ht by done.
  case_decide as Hten; [|done]. injection Ht as <-.
  rewrite Hdir, <- Hf in Hk |- *. cbn [pad_side] in Hk |- *.
  set (gd := {| x_sequences := OnDisk path'; explicit_seq_len := _ |}).
  rewrite (kept_lines_ids gd a f) in Hk |- * by done.
  assert (∀ v d, 0 ≤ v → 0 < d → 0 < Train.or_else v d) as Hor.
  { intros v d Hv Hd. unfold Train.or_else. case_bool_decide; lia. }
  cbn [explicit_seq_len num_shifted_sentences or_len source_len] in Hk.
  unfold Py.len in Hk. rewrite !length_fmap in Hk.
  set (gm := {| x_sequences := InMemory _; explicit_seq_len := _ |}).
  destruct (pipeline_run f gm gd path') with (k := k) (pos := 0%nat) (j := 0%nat)
    as (bs & g & Hrun & Hdisk).
  - cbn [x_sequences gm]. f_equal.
    rewrite <- list_fmap_compose. apply list_fmap_ext. intros _ ids _. simpl.
    by apply prepared_padded_line.
  - done.
  - cbn [explicit_seq_len gm or_len source_len]. unfold Py.len.
    by rewrite !length_fmap.
  - done.
  - done.
  - done.
  - done.
  - done.
  - cbn [skip_step gd]. by apply Hor.
  - cbn [num_shifted_sentences gd]. by apply Hor.
  - lia.
  - by rewrite take_0.
  - cbn [num_shifted_sentences gd]. unfold Py.len. lia.
  - exists bs. split; [|exact Hdisk].
    change (set_current_idx gm (Z.of_nat 0)) with gm in Hrun.
    unfold yielded. by rewrite Hrun.
Qed.


(** ** The sentence count in the program *)

(** X18. The number of sentences that [main] gives the generator: with
    [no_slurp], the number of lines that [wc -l] counts in the file, the
    lines that the reading loop will skip among them, and the length of the
    path when the count is zero; otherwise the number of rows of the
    prepared table, which holds only the lines of [min_seq_len] ids or
    more. *)
Theorem main_sentence_count {text : Type} (encode_as_ids : text → list Z)
    (a : Train.args) (corpus : list text) (corpus_path : string) (wc_l : Z) g :
  Train.batch_generator encode_as_ids a corpus corpus_path wc_l = Ok g →
  0 < Train.max_seq_len a →
  explicit_seq_len g
  = if Train.no_slurp a
    then if bool_decide (wc_l = 0) then Z.of_nat (String.length corpus_path)
         else wc_l
    else Py.len (kept a (encode_as_ids <$> corpus)).
Proof.
  unfold Train.batch_generator. intros Hg HM.
  destruct (Train.no_slurp a).
  - cbn [mbind result_bind] in Hg. by apply init_inv in Hg as [_ ->].
  - rewrite prepare_sequences_cases in Hg by done.
    case_decide; [|done]. cbn [mbind result_bind] in Hg.
    apply init_inv in Hg as [_ ->]. cbn [explicit_seq_len or_len source_len].
    unfold Py.len. by rewrite !length_fmap.
Qed.

(** ** When the sizes are undefined *)

(** X5. [get_steps_per_epoch] raises exactly when a division by zero is met:
    the skip step is zero, or it leaves no window ([max_seq_len //
    skip_step] is zero, which makes the batch size zero), or the block is
    of zero sentences; the exception is [ZeroDivisionError]. *)
Theorem steps_per_epoch_raises g :
  (get_steps_per_epoch g = Raise ZeroDivisionError ↔
   skip_step g = 0 ∨ max_seq_len g `div` skip_step g = 0 ∨
   num_shifted_sentences g = 0) ∧
  (∀ e, get_steps_per_epoch g = Raise e → e = ZeroDivisionError).
Proof.
  unfold get_steps_per_epoch, get_epoch_size, get_batch_size,
    get_num_sliding_windows, Py.floordiv.
  destruct (decide (skip_step g = 0)) as [Hs|Hs].
  - rewrite !(bool_decide_true (skip_step g = 0)) by done.
    split; [split; [by left|done]|]. by intros e [= <-].
  - rewrite !(bool_decide_false (skip_step g = 0)) by done.
    cbn [mbind result_bind]. case_bool_decide as Hb.
    + split; [|by intros e [= <-]]. split; [|done].
      intros _. right. apply Z.mul_eq_0 in Hb. tauto.
    + split; [|done]. split; [done|]. intros [?|[Hw|Hn]]; [done|..].
      * rewrite Hw in Hb. lia.
      * rewrite Hn in Hb. lia.
Qed.

(** ** The further properties on the sample data *)

Lemma batch_layout_witness :
  let off := Z.to_nat (Z.of_nat 1 * skip_step (Sample.slurped 2)) in
  Sample.batch.1 !! (1 * length (take 2 Sample.table) + 0)%nat
  = Some (drop off [10; 11; 12; 13] ++ replicate off 1) ∧
  Sample.batch.2 !! (1 * length (take 2 Sample.table) + 0)%nat
  = Some (drop (S off) [10; 11; 12; 13] ++ replicate (S off) 1) ∧
  skip_step (Sample.slurped 2) ≤ Py.len (drop off [10; 11; 12; 13]).
Proof.
  apply (batch_layout (Sample.slurped 2) (take 2 Sample.table) 2
           Sample.batch.1 Sample.batch.2 1 0 [10; 11; 12; 13]).
  - repeat constructor.
  - reflexivity.
  - reflexivity.
  - reflexivity.
  - reflexivity.
  - reflexivity.
Defined.

Lemma last_target_column_witness :
  [11; 12; 13; 1] !! (Z.to_nat (max_seq_len (Sample.slurped 2)) - 1)%nat = Some 1.
Proof.
  apply (last_target_column (Sample.slurped 2) Sample.raw
           Sample.batch.1 Sample.batch.2 0 [11; 12; 13; 1]).
  - repeat constructor; by vm_compute.
  - eapply (emits_slurped _ _ _ 2); reflexivity.
  - reflexivity.
  - reflexivity.
Defined.

Lemma constructed_has_window_witness :
  ∃ w, get_num_sliding_windows (Sample.slurped 2) = Ok w ∧ 1 ≤ w ∧ w * 2 ≤ 4 ∧
       (0 < 2 → ∃ b, get_batch_size (Sample.slurped 2) = Ok b ∧ 2 ≤ b).
Proof.
  apply (constructed_has_window (InMemory Sample.table) 4 1 2 1 2 None false
           (Sample.slurped 2)).
  - reflexivity.
  - reflexivity.
Defined.

Lemma blocks_are_consecutive_witness :
  current_idx (set_current_idx (Sample.slurped 1) 1) = Z.of_nat 1 * 1 ∧
  length (take (Z.to_nat 1) (drop (1 * Z.to_nat 1) Sample.table)) = Z.to_nat 1 ∧
  slurped_rows (set_current_idx (Sample.slurped 1) 1) 2
  = Ok (windows (take (Z.to_nat 1) (drop (1 * Z.to_nat 1) Sample.table)) 2 2).
Proof.
  eapply (blocks_are_consecutive Sample.table 4 1 1 1 2 None false
            (Sample.slurped 1) 1 _ (set_current_idx (Sample.slurped 1) 1) 2).
  - reflexivity.
  - reflexivity.
  - reflexivity.
  - unfold Py.len. simpl. lia.
  - reflexivity.
Defined.

Lemma stream_period_witness :
  set_current_idx (Sample.slurped 2) 2 = set_current_idx (Sample.slurped 2) 2 ∧
  last [Sample.batch; Sample.batch] = Some Sample.batch.
Proof.
  apply (stream_period (InMemory Sample.table) 4 1 2 1 2 None false
           (Sample.slurped 2) Sample.batch (set_current_idx (Sample.slurped 2) 2)
           [Sample.batch; Sample.batch] (set_current_idx (Sample.slurped 2) 2)).
  - reflexivity.
  - reflexivity.
  - reflexivity.
  - reflexivity.
  - reflexivity.
Defined.

Lemma tail_never_yielded_witness :
  yielded (run_slurped 3
             (with_source (Sample.slurped 2)
                (InMemory (take 2 Sample.table ++ [[0; 0; 0; 0]]))))
  = yielded (run_slurped 3 (Sample.slurped 2)).
Proof.
  apply (tail_never_yielded (take 2 Sample.table) [[30; 31; 32; 33]]
           [[0; 0; 0; 0]] 4 1 2 1 2 false 1 3).
  - reflexivity.
  - reflexivity.
  - reflexivity.
  - lia.
  - reflexivity.
  - unfold Py.len. simpl. lia.
  - reflexivity.
Defined.

Lemma reset_restarts_witness :
  reset (set_current_idx (Sample.slurped 2) 2) = Sample.slurped 2 ∧
  next_disk 2 (set_current_idx (Sample.streamed 2 1) 7) Sample.corpus 0
  = next_disk 2 (Sample.streamed 2 1) Sample.corpus 0 ∧
  next_disk 2 (reset (Sample.streamed 2 1)) Sample.corpus 0
  = next_disk 2 (Sample.streamed 2 1) Sample.corpus 0.
Proof.
  apply (reset_restarts (InMemory Sample.table) 4 1 2 1 2 None false).
  - reflexivity.
  - eapply reach_yield; [apply reach_start|reflexivity].
Defined.

Lemma slurped_never_stops_witness :
  ∃ bs g', run_slurped 3 (Sample.slurped 2) = Ok (bs, g') ∧ length bs = 3%nat.
Proof.
  apply (slurped_never_stops Sample.table 3 (Sample.slurped 2)).
  - reflexivity.
  - repeat constructor; by vm_compute.
  - unfold Py.len. simpl. lia.
  - unfold Py.len. simpl. lia.
Defined.

Lemma preparer_needs_ten_lines_witness :
  Train.prepare_sequences id Sample.plain_args Sample.table = Raise IndexError.
Proof.
  apply (preparer_needs_ten_lines id Sample.plain_args Sample.table).
  - reflexivity.
  - vm_compute. lia.
Defined.

Lemma prepared_table_witness :
  ∃ table,
    Train.prepare_sequences id Sample.plain_args Sample.mixed_ids = Ok table ∧
    table = pad_side (Train.padding_direction Sample.plain_args)
              (Train.max_seq_len Sample.plain_args) Train.PAD_ID
            <$> (prepared Sample.plain_args
                 <$> kept Sample.plain_args (id <$> Sample.mixed_ids)) ∧
    has_shape table (Py.len (kept Sample.plain_args (id <$> Sample.mixed_ids)))
      (Train.max_seq_len Sample.plain_args).
Proof.
  apply (prepared_table id Sample.plain_args Sample.mixed_ids).
  - reflexivity.
  - vm_compute. lia.
Defined.


Lemma disk_stream_starves_witness :
  next_disk 5 (Sample.streamed 2 1) Sample.corpus 2 = None.
Proof.
  apply (disk_stream_starves (Sample.streamed 2 1) "corpus.txt" Sample.corpus 2 5).
  - reflexivity.
  - unfold Py.len. simpl. lia.
  - reflexivity.
  - reflexivity.
  - repeat constructor; by vm_compute.
  - reflexivity.
Defined.

Lemma disk_stream_pads_at_eof_witness :
  ∃ b,
    next_disk 2 Sample.lenient Sample.corpus 3 = Some (Ok (b, 3%nat)) ∧
    repad Sample.lenient
      (windows (replicate (Z.to_nat (num_shifted_sentences Sample.lenient))
                  (replicate (Z.to_nat (max_seq_len Sample.lenient))
                     (pad_idx_or_symbol Sample.lenient)))
         (skip_step Sample.lenient)
         (max_seq_len Sample.lenient `div` skip_step Sample.lenient)) = Ok b.
Proof.
  apply (disk_stream_pads_at_eof Sample.lenient "corpus.txt" Sample.corpus 3 2).
  - reflexivity.
  - reflexivity.
  - unfold Py.len. simpl. lia.
  - reflexivity.
  - vm_compute. lia.
  - vm_compute. lia.
Defined.

Lemma disk_single_id_line_witness :
  next_disk 2 Sample.streamed_ragged Sample.lonely 0 = Some (Raise TypeError).
Proof.
  apply (disk_single_id_line Sample.streamed_ragged "corpus.txt" Sample.lonely
           [ {| line_bytes := 9; line_ids := [10; 11; 12] |} ]
           [ {| line_bytes := 6; line_ids := [30; 31] |} ]
           {| line_bytes := 2; line_ids := [7] |} 0 2).
  - reflexivity.
  - unfold Py.len. simpl. lia.
  - reflexivity.
  - reflexivity.
  - repeat constructor; by vm_compute.
  - reflexivity.
  - reflexivity.
  - vm_compute. lia.
Defined.

Lemma pipelines_agree_witness :
  ∃ bs, yielded (run_slurped 2 Sample.mixed_slurped) = Ok bs ∧
        ∀ fuel, (length Sample.mixed ≤ fuel)%nat →
          ∃ pos', run_disk fuel 2 Sample.mixed_streamed Sample.mixed 0
                  = Some (Ok (bs, pos')).
Proof.
  apply (pipelines_agree id Sample.plain_args Sample.mixed_ids Sample.mixed_ids
           Sample.mixed "corpus.txt" "ids.txt" 12 12 2
           Sample.mixed_slurped Sample.mixed_streamed).
  - reflexivity.
  - reflexivity.
  - reflexivity.
  - reflexivity.
  - unfold Py.len. simpl. lia.
  - unfold Py.len. simpl. lia.
  - reflexivity.
  - reflexivity.
  - reflexivity.
  - repeat constructor; by vm_compute.
  - reflexivity.
Defined.

Lemma steps_per_epoch_cancel_witness :
  get_steps_per_epoch (Sample.slurped 2)
  = Ok (explicit_seq_len (Sample.slurped 2)
        `div` num_shifted_sentences (Sample.slurped 2)).
Proof.
  apply (steps_per_epoch_cancel (Sample.slurped 2)); vm_compute; lia.
Defined.

Lemma batch_generator_facts_witness :
  pad_idx_or_symbol Sample.mixed_slurped = Train.PAD_ID ∧
  skip_step Sample.mixed_slurped ≠ 0 ∧
  num_shifted_sentences Sample.mixed_slurped ≠ 0 ∧
  table_fits Sample.mixed_slurped ∧
  (Train.no_slurp Sample.plain_args = false →
   ∃ table, x_sequences Sample.mixed_slurped = InMemory table ∧
            explicit_seq_len Sample.mixed_slurped = Py.len table ∧
            Forall (fun row => Py.len row = max_seq_len Sample.mixed_slurped)
              table).
Proof.
  apply (batch_generator_facts id Sample.plain_args Sample.mixed_ids
           "corpus.txt" 12 Sample.mixed_slurped).
  reflexivity.
Defined.

Lemma main_sentence_count_witness :
  explicit_seq_len Sample.mixed_streamed
  = if Train.no_slurp (streaming Sample.plain_args)
    then if bool_decide (12 = 0) then Z.of_nat (String.length "ids.txt") else 12
    else Py.len (kept (streaming Sample.plain_args) (id <$> Sample.mixed_ids)).
Proof.
  apply (main_sentence_count id (streaming Sample.plain_args) Sample.mixed_ids
           "ids.txt" 12 Sample.mixed_streamed).
  - reflexivity.
  - reflexivity.
Defined.
